(** * The skincare recommendation agent: a model of [callAgent] and of the
      HTTP handlers that drive it.

    The program is a LangGraph workflow with two nodes, [agent] and [tools],
    compiled with a MongoDB checkpointer and invoked once per HTTP request.
    The file embeds, in this order,

    - the data the program handles (JavaScript values, messages, the graph
      state and its reducers);
    - the effects it has (a world holding the checkpoint collection and a
      log of the calls made to the outside), as a state and error monad;
    - the pieces [callAgent] is built from: the zod schema of the
      [product_lookup] tool and its handler, the tool node, [shouldContinue],
      [callModel], the super-step loop that runs the compiled graph, and
      [callAgent] itself;
    - the handlers of [POST /chat] and [POST /chat/:threadId].

    What lies outside the program (the two language models, the vector
    store, the file system, the JSON built-ins and the clock) is a parameter:
    the class [Environment].  What the program takes from its libraries and
    runs as its own control flow is modelled with it, after the libraries'
    behaviour: zod's [optional] and [default], the schema check of [tool],
    the tool node built with its default options, the reducers of the graph
    state, the checkpointer, and the loop that executes the graph under a
    recursion limit.

    [src/agent.ts] holds two revisions of [callAgent].  The model follows
    the first, whose prompt carries the questionnaire and the image analysis.
    The second revision differs from it in the prompt and in what it does
    with its arguments (it sends the query as the human message and only
    prints the image analysis); its tool, tool node, routing, reducer and
    recursion limit are the same. *)

From Stdlib Require Import ZArith NArith Lia Ascii String DecimalString DecimalN.
From Stdlib Require DecimalZ.
From stdpp Require Import base option list strings gmap.

#[local] Set Warnings "-register-all".
Local Open Scope Z_scope.
Local Open Scope string_scope.
Local Open Scope list_scope.

(** ** JavaScript values *)

(** The values that cross the program's interfaces: request body fields,
    the arguments of a tool call, what [JSON.parse] returns.  Numbers are
    kept to the integers; the program only ever passes one on (the result
    count [n]). *)
Inductive JsValue : Type :=
| JUndefined
| JNull
| JBool (b : bool)
| JNumber (n : Z)
| JString (s : string)
| JArray (items : list JsValue)
| JObject (fields : list (string * JsValue)).

(** ** Messages *)

Record ToolCall : Type := mkToolCall {
  tc_name : string;
  tc_args : gmap string JsValue;
  tc_id : string
}.

Inductive Message : Type :=
| SystemMessage (content : string)
| HumanMessage (content : string)
| AIMessage (content : string) (tool_calls : list ToolCall)
| ToolMessage (content : string) (name : string) (tool_call_id : string).

Definition content (m : Message) : string :=
  match m with
  | SystemMessage c | HumanMessage c | AIMessage c _ | ToolMessage c _ _ => c
  end.

(** [m.tool_calls], read on any message: only an [AIMessage] carries some. *)
Definition tool_calls (m : Message) : list ToolCall :=
  match m with
  | AIMessage _ calls => calls
  | _ => []
  end.

(** ** The graph state, [GraphState] *)

Record GraphState : Type := mkState {
  messages : list Message;
  imageAnalysis : option string;
  userResponses : option JsValue
}.

(** What a node, or the caller of [app.invoke], hands to the reducers: a
    value per channel it writes.  Nodes write [messages] only. *)
Record Update : Type := mkUpdate {
  u_messages : list Message;
  u_imageAnalysis : option (option string);
  u_userResponses : option JsValue
}.

(** [reducer: (x, y) => x.concat(y)] *)
Definition messages_reducer (x y : list Message) : list Message := x ++ y.

(** [reducer: (_, y) => y], for a channel the update may not mention. *)
Definition last_value_reducer {A} (x : A) (y : option A) : A :=
  match y with
  | Some v => v
  | None => x
  end.

Definition apply_update (st : GraphState) (u : Update) : GraphState :=
  {| messages := messages_reducer (messages st) (u_messages u);
     imageAnalysis := last_value_reducer (imageAnalysis st) (u_imageAnalysis u);
     userResponses :=
       last_value_reducer (userResponses st) (Some <$> u_userResponses u) |}.

Definition messages_update (ms : list Message) : Update :=
  {| u_messages := ms; u_imageAnalysis := None; u_userResponses := None |}.

(** The channels of a thread that has no checkpoint yet. *)
Definition empty_state : GraphState :=
  {| messages := []; imageAnalysis := None; userResponses := None |}.

(** ** Nodes and routes *)

Inductive Node : Type := agent | tools.

Inductive Route : Type := Goto (n : Node) | END.

(** ** Errors *)

Inductive ModelKind : Type := VisionModel | ChatModel.

Inductive Error : Type :=
| SyntaxError
| TypeError
| FsError
| ModelInvocationError (which : ModelKind) (message : string)
| ToolInputParsingException
| ToolNotFound (name : string)
| ToolExecutionError (message : string)
| ToolNodeInputError
| GraphRecursionError.

Definition dquote : string := String "034"%char EmptyString.

(** [e.message] *)
Definition error_message (e : Error) : string :=
  match e with
  | SyntaxError => "Unexpected token in JSON"
  | TypeError => "Cannot read properties of undefined"
  | FsError => "ENOENT: no such file or directory"
  | ModelInvocationError _ m => m
  | ToolInputParsingException => "Received tool input did not match expected schema"
  | ToolNotFound name => "Tool " +:+ dquote +:+ name +:+ dquote +:+ " not found."
  | ToolExecutionError m => m
  | ToolNodeInputError => "ToolNode only accepts AIMessages as input."
  | GraphRecursionError => "Recursion limit reached without hitting a stop condition."
  end.

Inductive Result (A : Type) : Type :=
| Ok (a : A)
| Throw (e : Error).
Arguments Ok {A} a.
Arguments Throw {A} e.

(** ** The world: checkpoints and the log of outside calls *)

(** What a run leaves in the log: the calls it made to the outside, and a
    mark for every super-step of the graph it began. *)
Inductive Event : Type :=
| FileRead (path : string)
| VisionInvoked (image : string)
| Ran (n : Node)
| ModelInvoked (prompt : list Message)
| SearchInvoked (query : string) (k : Z).

Record World : Type := mkWorld {
  checkpoints : gmap string GraphState;
  log : list Event
}.

(** The world after the given calls were logged. *)
Definition logged (w : World) (events : list Event) : World :=
  {| checkpoints := checkpoints w; log := log w ++ events |}.

(** The world after a checkpoint of a thread was written. *)
Definition checkpointed (w : World) (thread_id : string) (state : GraphState) : World :=
  {| checkpoints := <[thread_id := state]> (checkpoints w); log := log w |}.

Definition M (A : Type) : Type := World -> Result A * World.

#[global] Instance M_ret : MRet M := fun A a w => (Ok a, w).

#[global] Instance M_bind : MBind M := fun A B f m w =>
  match m w with
  | (Ok a, w') => f a w'
  | (Throw e, w') => (Throw e, w')
  end.

Definition throw {A} (e : Error) : M A := fun w => (Throw e, w).

(** [try { m } catch (e) { handler(e) }] *)
Definition try_catch {A} (m : M A) (handler : Error -> M A) : M A := fun w =>
  match m w with
  | (Ok a, w') => (Ok a, w')
  | (Throw e, w') => handler e w'
  end.

Definition emit (e : Event) : M unit := fun w => (Ok tt, logged w [e]).

Definition lift_result {A} (r : Result A) : M A := fun w => (r, w).

Fixpoint mapM {A B} (f : A -> M B) (l : list A) : M (list B) :=
  match l with
  | [] => mret []
  | x :: l' => y ← f x; ys ← mapM f l'; mret (y :: ys)
  end.

(** What a call to the outside comes back with: a promise that resolves or
    rejects. *)
Inductive Reply (A : Type) : Type :=
| Resolved (a : A)
| Rejected (message : string).
Arguments Resolved {A} a.
Arguments Rejected {A} message.

(** ** The environment *)

Class Environment : Type := {
  (** [JSON.parse]; [None] when it throws. *)
  JSON_parse : string -> option JsValue;
  (** [JSON.stringify(v)] *)
  JSON_stringify : JsValue -> string;
  (** [JSON.stringify(v, null, 2)] *)
  JSON_stringify_indent2 : JsValue -> string;
  (** [Buffer.from(fs.readFileSync(path)).toString("base64")]; [None] when
      the read throws. *)
  readFileSync_base64 : string -> option string;
  (** [vision.invoke([system_message, message])], as a function of the
      image: the two instruction texts are constants of the program. *)
  vision_invoke : string -> Reply string;
  (** [model.invoke(formattedPrompt)], the chat model bound to the tools:
      the reply's text and its tool calls. *)
  model_invoke : list Message -> Reply (string * list ToolCall);
  (** [vectorStore.similaritySearchWithScore(query, n)] *)
  similaritySearchWithScore : string -> Z -> Reply JsValue;
  (** [new Date().toISOString()], read after the given log of calls. *)
  toISOString_now : list Event -> string
}.

(** ** zod schemas *)

(** A schema reads a value ([JUndefined] for a missing key) and either
    yields the parsed value or fails with a [ZodError]. *)
Definition Zod (A : Type) : Type := JsValue -> option A.

(** [z.string()] *)
Definition z_string : Zod string := fun v =>
  match v with
  | JString s => Some s
  | _ => None
  end.

(** [z.number()] *)
Definition z_number : Zod Z := fun v =>
  match v with
  | JNumber n => Some n
  | _ => None
  end.

(** [schema.optional()]: [undefined] passes through as [undefined]. *)
Definition z_optional {A} (schema : Zod A) : Zod (option A) := fun v =>
  match v with
  | JUndefined => Some None
  | _ => Some <$> schema v
  end.

(** [schema.default(d)]: an [undefined] input is replaced by [d] before the
    inner schema reads it. *)
Definition z_default {A} (schema : Zod A) (d : JsValue) : Zod A := fun v =>
  match v with
  | JUndefined => schema d
  | _ => schema v
  end.

(** [args.key] on the argument object of a tool call. *)
Definition prop (args : gmap string JsValue) (key : string) : JsValue :=
  default JUndefined (args !! key).

(** ** The [product_lookup] tool *)

(** What the handler destructures: [{ query, n }], [n] possibly
    [undefined]. *)
Record ProductLookupInput : Type := mkInput {
  query : string;
  n : option Z
}.

(** [z.object({ query: z.string(), n: z.number().optional().default(10) })] *)
Definition prodLookup_schema (args : gmap string JsValue) : option ProductLookupInput :=
  q ← z_string (prop args "query");
  k ← z_default (z_optional z_number) (JNumber 10) (prop args "n");
  Some {| query := q; n := k |}.

(** A tool as the tool node sees it: a name and [tool.invoke]. *)
Record Tool : Type := mkTool {
  tool_name : string;
  tool_invoke : gmap string JsValue -> M string
}.

(** [tool(func, { name, schema })]: the arguments are parsed by the schema,
    a parse failure throws, and [func] receives the parsed value. *)
Definition tool {A} (func : A -> M string) (name : string)
    (schema : gmap string JsValue -> option A) : Tool :=
  {| tool_name := name;
     tool_invoke := fun args =>
       match schema args with
       | None => throw ToolInputParsingException
       | Some parsed => func parsed
       end |}.

Section Agent.
Context `{Environment}.

(** [async ({ query, n = 4 }) => { ... }] *)
Definition prodLookup_func (input : ProductLookupInput) : M string :=
  let n := default 4 (n input) in
  _ ← emit (SearchInvoked (query input) n);
  match similaritySearchWithScore (query input) n with
  | Resolved result => mret (JSON_stringify result)
  | Rejected msg => throw (ToolExecutionError msg)
  end.

Definition prodLookupTool : Tool :=
  tool prodLookup_func "product_lookup" prodLookup_schema.

Definition the_tools : list Tool := [prodLookupTool].

(** ** The tool node *)

Record ToolNode : Type := mkToolNode {
  tn_tools : list Tool;
  handleToolErrors : bool
}.

(** [new ToolNode(tools)]: no options, so [handleToolErrors] keeps its
    initial value [true]. *)
Definition new_ToolNode (tools : list Tool) : ToolNode :=
  {| tn_tools := tools; handleToolErrors := true |}.

(** The message the tool node answers a failed call with. *)
Definition tool_error_message (e : Error) (call : ToolCall) : Message :=
  ToolMessage
    ("Error: " +:+ error_message e +:+ "
 Please fix your mistakes.")
    (tc_name call) (tc_id call).

(** The body run for one tool call: look the tool up, invoke it, wrap the
    output in a [ToolMessage]; a failure is caught and, when
    [handleToolErrors] is set, answered with [tool_error_message]. *)
Definition run_tool_call (node : ToolNode) (call : ToolCall) : M Message :=
  try_catch
    (match find (fun t => bool_decide (tool_name t = tc_name call)) (tn_tools node) with
     | None => throw (ToolNotFound (tc_name call))
     | Some t =>
         output ← tool_invoke t (tc_args call);
         mret (ToolMessage output (tool_name t) (tc_id call))
     end)
    (fun e =>
       if handleToolErrors node
       then mret (tool_error_message e call)
       else throw e).

(** [ToolNode.run]: one message per tool call of the last message, in the
    order of the calls.  (The calls are started together and awaited with
    [Promise.all]; the model runs them one after the other.) *)
Definition ToolNode_run (node : ToolNode) (state : GraphState) : M Update :=
  match last (messages state) with
  | Some (AIMessage _ calls) =>
      outputs ← mapM (run_tool_call node) calls;
      mret (messages_update outputs)
  | _ => throw ToolNodeInputError
  end.

Definition toolNode : ToolNode := new_ToolNode the_tools.

(** ** [shouldContinue] *)

(** The last message is read as an [AIMessage]; reading a property of the
    [undefined] an empty array yields is a [TypeError]. *)
Definition shouldContinue (state : GraphState) : Result Route :=
  match last (messages state) with
  | None => Throw TypeError
  | Some lastMessage =>
      match tool_calls lastMessage with
      | [] => Ok END
      | _ :: _ => Ok (Goto tools)
      end
  end.

(** ** [callModel] *)

(** The system template, with its four placeholders as arguments. *)
Definition system_template (user_responses image_analysis tool_names time : string) : string :=
  "You are an AI Skincare Expert specializing in providing personalized skincare recommendations. Your task is to analyze both the user's questionnaire responses and image analysis (if available) to provide tailored product recommendations.

Current Context:
- User Questionnaire: " +:+ user_responses +:+ "
- Image Analysis: " +:+ image_analysis +:+ "

Based on this information:
1. Analyze both the questionnaire responses and image analysis
2. Identify the key skincare needs and concerns
3. Use the product lookup tool to find suitable products
4. Provide a comprehensive recommendation with explanation

Format your response as follows:
1. Brief analysis of the user's skin condition and needs
2. Product recommendations with explanations for each
3. Usage instructions and any additional advice

You have access to the following tools: " +:+ tool_names +:+ "
Current time: " +:+ time.

Definition no_image_analysis : string := "No image analysis available".

(** [x || d] on a string that may be [null]: the empty string is falsy. *)
Definition or_else (x : option string) (d : string) : string :=
  match x with
  | Some ((String _ _) as s) => s
  | _ => d
  end.

(** [names.join(", ")] *)
Fixpoint join (sep : string) (names : list string) : string :=
  match names with
  | [] => EmptyString
  | [x] => x
  | x :: rest => x +:+ sep +:+ join sep rest
  end.

(** [prompt.formatMessages({ ... })]: the filled system message, then the
    messages of the state in the place of the [MessagesPlaceholder]. *)
Definition formatMessages (userResponses : JsValue) (imageAnalysis : option string)
    (time : string) (state : GraphState) : list Message :=
  SystemMessage
    (system_template
       (JSON_stringify_indent2 userResponses)
       (or_else imageAnalysis no_image_analysis)
       (join ", " (tool_name <$> the_tools))
       time)
  :: messages state.

Definition now_iso : M string := fun w => (Ok (toISOString_now (log w)), w).

(** [userResponses] and [imageAnalysis] are the variables of [callAgent]
    that [callModel] closes over. *)
Definition callModel (userResponses : JsValue) (imageAnalysis : option string)
    (state : GraphState) : M Update :=
  time ← now_iso;
  let formattedPrompt := formatMessages userResponses imageAnalysis time state in
  _ ← emit (ModelInvoked formattedPrompt);
  match model_invoke formattedPrompt with
  | Resolved (text, calls) => mret (messages_update [AIMessage text calls])
  | Rejected msg => throw (ModelInvocationError ChatModel msg)
  end.

(** ** The workflow and its execution *)

Record StateGraph : Type := mkGraph {
  nodes : Node -> GraphState -> M Update;
  entry : Node;
  edges : Node -> GraphState -> Result Route
}.

(** [new StateGraph(GraphState).addNode("agent", callModel)
      .addNode("tools", toolNode).addEdge("__start__", "agent")
      .addConditionalEdges("agent", shouldContinue).addEdge("tools", "agent")] *)
Definition workflow (userResponses : JsValue) (imageAnalysis : option string) : StateGraph :=
  {| nodes := fun node =>
       match node with
       | agent => callModel userResponses imageAnalysis
       | tools => ToolNode_run toolNode
       end;
     entry := agent;
     edges := fun node state =>
       match node with
       | agent => shouldContinue state
       | tools => Ok (Goto agent)
       end |}.

(** The checkpointer: the latest state of a thread, keyed by [thread_id];
    a thread it has never seen reads as the empty channels. *)
Definition get_checkpoint (thread_id : string) : M GraphState := fun w =>
  (Ok (default empty_state (checkpoints w !! thread_id)), w).

Definition put_checkpoint (thread_id : string) (state : GraphState) : M unit := fun w =>
  (Ok tt, checkpointed w thread_id state).

(** The super-step loop of the compiled graph.  [remaining] is what is left
    of [recursionLimit]: every execution of a node, [agent] or [tools]
    alike, is one super-step and uses one unit (the step in which the input
    is written does not).  A super-step runs the node, reduces its update
    into the channels, takes the node's outgoing edge and checkpoints the
    new state.  The loop then checks the limit before it looks at what is
    next: once the last permitted super-step has run, the run is out of
    steps, whatever the edge said. *)
Fixpoint run_steps (graph : StateGraph) (thread_id : string) (remaining : nat)
    (node : Node) (state : GraphState) : M GraphState :=
  match remaining with
  | O => throw GraphRecursionError
  | S remaining' =>
      _ ← emit (Ran node);
      update ← nodes graph node state;
      let state' := apply_update state update in
      route ← lift_result (edges graph node state');
      _ ← put_checkpoint thread_id state';
      match remaining' with
      | O => throw GraphRecursionError
      | S _ =>
          match route with
          | END => mret state'
          | Goto next => run_steps graph thread_id remaining' next state'
          end
      end
  end.

(** [app.invoke(input, { recursionLimit, configurable: { thread_id } })]:
    the thread's checkpoint is loaded, the input is reduced into it and
    checkpointed, and the graph runs from its entry node. *)
Definition app_invoke (graph : StateGraph) (input : Update) (recursionLimit : nat)
    (thread_id : string) : M GraphState :=
  saved ← get_checkpoint thread_id;
  let state := apply_update saved input in
  _ ← put_checkpoint thread_id state;
  run_steps graph thread_id recursionLimit (entry graph) state.

(** ** [callAgent] *)

Definition request_text : string :=
  "Please provide skincare recommendations based on my responses and image.".

(** The body of [if (image_path) { ... }]: read the file, invoke the vision
    model once, keep [String(response.content)]. *)
Definition analyse_image (image_path : string) : M string :=
  _ ← emit (FileRead image_path);
  match readFileSync_base64 image_path with
  | None => throw FsError
  | Some base64_image =>
      _ ← emit (VisionInvoked base64_image);
      match vision_invoke base64_image with
      | Resolved text => mret text
      | Rejected msg => throw (ModelInvocationError VisionModel msg)
      end
  end.

(** [let imageAnalysis = null; if (image_path) { imageAnalysis = ... }]:
    the empty path is falsy. *)
Definition analyse (image_path : option string) : M (option string) :=
  match image_path with
  | Some ((String _ _) as path) => text ← analyse_image path; mret (Some text)
  | _ => mret None
  end.

Definition recursionLimit : nat := 15.

(** The input of [app.invoke]: the request message and the two values
    [callAgent] computed. *)
Definition request_input (userResponses : JsValue) (imageAnalysis : option string) : Update :=
  {| u_messages := [HumanMessage request_text];
     u_imageAnalysis := Some imageAnalysis;
     u_userResponses := Some userResponses |}.

Definition callAgent (query thread_id : string) (image_path : option string) : M string :=
  match JSON_parse query with
  | None => throw SyntaxError
  | Some userResponses =>
      imageAnalysis ← analyse image_path;
      finalState ←
        app_invoke (workflow userResponses imageAnalysis)
          (request_input userResponses imageAnalysis)
          recursionLimit thread_id;
      match last (messages finalState) with
      | Some m => mret (content m)
      | None => throw TypeError
      end
  end.

(** ** The HTTP handlers *)

Record ChatBody : Type := mkBody {
  skinType : JsValue;
  mainConcerns : JsValue;
  breakoutFrequency : JsValue;
  productSensitivity : JsValue;
  skinCareRoutine : JsValue
}.

(** [{ skinType, mainConcerns, breakoutFrequency, productSensitivity,
      skinCareRoutine }] *)
Definition questionnaire (body : ChatBody) : JsValue :=
  JObject [("skinType", skinType body);
           ("mainConcerns", mainConcerns body);
           ("breakoutFrequency", breakoutFrequency body);
           ("productSensitivity", productSensitivity body);
           ("skinCareRoutine", skinCareRoutine body)].

Inductive HttpResponse : Type :=
| Started (threadId response : string)
| Continued (response : string)
| Status500 (error : string).

(** [Date.now().toString()] *)
Definition Date_now_toString (now : N) : string :=
  NilEmpty.string_of_uint (N.to_uint now).

(** [path || null] *)
Definition or_null (path : option string) : option string :=
  match path with
  | Some ((String _ _) as p) => Some p
  | _ => None
  end.

(** [POST /chat]; [now] is what [Date.now()] reads, [image] is
    [req.file?.path]. *)
Definition postChat (now : N) (body : ChatBody) (image : option string)
    : World -> HttpResponse * World := fun w =>
  let threadId := Date_now_toString now in
  let userResponses := questionnaire body in
  match callAgent (JSON_stringify userResponses) threadId (or_null image) w with
  | (Ok response, w') => (Started threadId response, w')
  | (Throw _, w') => (Status500 "Internal server error", w')
  end.

(** [POST /chat/:threadId] *)
Definition postChatThread (threadId message : string)
    : World -> HttpResponse * World := fun w =>
  match callAgent message threadId None w with
  | (Ok response, w') => (Continued response, w')
  | (Throw _, w') => (Status500 "Internal server error", w')
  end.

End Agent.

(** ** A sample environment

    A JSON reader and two JSON printers over [JsValue], with which the
    program can be run on concrete requests, and an [Environment] built from
    them and from given models, store and files. *)
Module Sample.

Definition dq : string := dquote.
Definition nl : string := String "010"%char EmptyString.

Fixpoint escape (s : string) : string :=
  match s with
  | EmptyString => EmptyString
  | String c r =>
      (match c with
       | "034"%char => String "092"%char dq
       | "092"%char => String "092"%char (String "092"%char EmptyString)
       | "010"%char => String "092"%char "n"
       | "013"%char => String "092"%char "r"
       | "009"%char => String "092"%char "t"
       | _ => String c EmptyString
       end) +:+ escape r
  end.

Definition quoted (s : string) : string := dq +:+ escape s +:+ dq.

Definition decimal (z : Z) : string := NilEmpty.string_of_int (Z.to_int z).

(** [JSON.stringify(v)]: a property whose value is [undefined] is left
    out, an [undefined] array item is printed as [null]. *)
Fixpoint stringify (v : JsValue) : string :=
  match v with
  | JUndefined => "undefined"
  | JNull => "null"
  | JBool true => "true"
  | JBool false => "false"
  | JNumber z => decimal z
  | JString s => quoted s
  | JArray items =>
      "[" +:+ join ","
                (map (fun i => match i with JUndefined => "null" | _ => stringify i end) items)
          +:+ "]"
  | JObject fields =>
      "{" +:+ join ","
                ((fix members (fs : list (string * JsValue)) : list string :=
                    match fs with
                    | [] => []
                    | (_, JUndefined) :: rest => members rest
                    | (k, x) :: rest => (quoted k +:+ ":" +:+ stringify x) :: members rest
                    end) fields)
          +:+ "}"
  end.

(** [JSON.stringify(v, null, 2)], [indent] being the indentation of the
    line the value starts on. *)
Fixpoint stringify_indent2 (indent : string) (v : JsValue) : string :=
  let inner := indent +:+ "  " in
  match v with
  | JArray ((_ :: _) as items) =>
      "[" +:+ nl +:+
      join ("," +:+ nl)
        (map (fun i => inner +:+ match i with
                                 | JUndefined => "null"
                                 | _ => stringify_indent2 inner i
                                 end) items)
      +:+ nl +:+ indent +:+ "]"
  | JObject fields =>
      match (fix members (fs : list (string * JsValue)) : list string :=
               match fs with
               | [] => []
               | (_, JUndefined) :: rest => members rest
               | (k, x) :: rest =>
                   (inner +:+ quoted k +:+ ": " +:+ stringify_indent2 inner x) :: members rest
               end) fields with
      | [] => "{}"
      | lines => "{" +:+ nl +:+ join ("," +:+ nl) lines +:+ nl +:+ indent +:+ "}"
      end
  | _ => stringify v
  end.

Definition is_ws (c : ascii) : bool :=
  match c with
  | " "%char | "009"%char | "010"%char | "013"%char => true
  | _ => false
  end.

Fixpoint skip_ws (s : string) : string :=
  match s with
  | String c r => if is_ws c then skip_ws r else s
  | EmptyString => s
  end.

Definition digit (c : ascii) : option Z :=
  let k := Z.of_nat (nat_of_ascii c) in
  if ((48 <=? k)%Z && (k <=? 57)%Z)%bool then Some (k - 48)%Z else None.

Fixpoint read_digits (acc : Z) (s : string) : Z * string :=
  match s with
  | String c r =>
      match digit c with
      | Some d => read_digits (10 * acc + d)%Z r
      | None => (acc, s)
      end
  | EmptyString => (acc, s)
  end.

(** An integer literal: [0], or a non-zero digit followed by digits. *)
Definition read_int (s : string) : option (Z * string) :=
  match s with
  | String c r =>
      match digit c with
      | Some 0 =>
          match r with
          | String c' _ => if digit c' is Some _ then None else Some (0, r)
          | EmptyString => Some (0, r)
          end
      | Some d => Some (read_digits d r)
      | None => None
      end
  | EmptyString => None
  end.

(** The characters of a string literal, after its opening quote. *)
Fixpoint read_chars (s : string) : option (string * string) :=
  match s with
  | EmptyString => None
  | String "034"%char r => Some (EmptyString, r)
  | String "092"%char (String e r) =>
      c ← match e with
          | "034"%char | "092"%char | "/"%char => Some e
          | "n"%char => Some "010"%char
          | "r"%char => Some "013"%char
          | "t"%char => Some "009"%char
          | _ => None
          end;
      '(cs, rest) ← read_chars r;
      Some (String c cs, rest)
  | String c r =>
      if (Z.of_nat (nat_of_ascii c) <? 32)%Z then None
      else '(cs, rest) ← read_chars r; Some (String c cs, rest)
  end.

Definition expect (word : string) (v : JsValue) (s : string) : option (JsValue * string) :=
  if String.prefix word s
  then Some (v, String.substring (String.length word) (String.length s - String.length word)%nat s)
  else None.

Fixpoint read_value (fuel : nat) (s : string) : option (JsValue * string) :=
  match fuel with
  | O => None
  | S fuel' =>
      match skip_ws s with
      | (String "n"%char _) as t => expect "null" JNull t
      | (String "t"%char _) as t => expect "true" (JBool true) t
      | (String "f"%char _) as t => expect "false" (JBool false) t
      | String "034"%char r => '(cs, rest) ← read_chars r; Some (JString cs, rest)
      | String "-"%char r => '(z, rest) ← read_int r; Some (JNumber (- z)%Z, rest)
      | String "["%char r =>
          match skip_ws r with
          | String "]"%char rest => Some (JArray [], rest)
          | _ => '(items, rest) ← read_items fuel' r; Some (JArray items, rest)
          end
      | String "{"%char r =>
          match skip_ws r with
          | String "}"%char rest => Some (JObject [], rest)
          | _ => '(fields, rest) ← read_members fuel' r; Some (JObject fields, rest)
          end
      | t => '(z, rest) ← read_int t; Some (JNumber z, rest)
      end
  end
with read_items (fuel : nat) (s : string) : option (list JsValue * string) :=
  match fuel with
  | O => None
  | S fuel' =>
      '(v, rest) ← read_value fuel' s;
      match skip_ws rest with
      | String ","%char rest' => '(vs, rest'') ← read_items fuel' rest'; Some (v :: vs, rest'')
      | String "]"%char rest' => Some ([v], rest')
      | _ => None
      end
  end
with read_members (fuel : nat) (s : string) : option (list (string * JsValue) * string) :=
  match fuel with
  | O => None
  | S fuel' =>
      match skip_ws s with
      | String "034"%char r =>
          '(k, rest) ← read_chars r;
          match skip_ws rest with
          | String ":"%char rest' =>
              '(v, rest'') ← read_value fuel' rest';
              match skip_ws rest'' with
              | String ","%char rest3 =>
                  '(fs, rest4) ← read_members fuel' rest3; Some ((k, v) :: fs, rest4)
              | String "}"%char rest3 => Some ([(k, v)], rest3)
              | _ => None
              end
          | _ => None
          end
      | _ => None
      end
  end.

(** [JSON.parse(text)]: one value, with nothing but white space around
    it. *)
Definition parse (text : string) : option JsValue :=
  '(v, rest) ← read_value (2 * String.length text + 2)%nat text;
  match skip_ws rest with
  | EmptyString => Some v
  | _ => None
  end.

Definition env
    (model : list Message -> Reply (string * list ToolCall))
    (search : string -> Z -> Reply JsValue)
    (vision : string -> Reply string)
    (files : string -> option string) : Environment :=
  {| JSON_parse := parse;
     JSON_stringify := stringify;
     JSON_stringify_indent2 := stringify_indent2 EmptyString;
     readFileSync_base64 := files;
     vision_invoke := vision;
     model_invoke := model;
     similaritySearchWithScore := search;
     toISOString_now := fun _ => "2024-11-20T10:00:00.000Z" |}.

End Sample.

(** ** What the theorems observe *)

Definition is_Ran (e : Event) : bool :=
  match e with Ran _ => true | _ => false end.

Definition is_ModelInvoked (e : Event) : bool :=
  match e with ModelInvoked _ => true | _ => false end.

Definition is_VisionInvoked (e : Event) : bool :=
  match e with VisionInvoked _ => true | _ => false end.

Definition is_SearchInvoked (e : Event) : bool :=
  match e with SearchInvoked _ _ => true | _ => false end.

Fixpoint count (p : Event -> bool) (events : list Event) : nat :=
  match events with
  | [] => O
  | e :: rest => ((if p e then 1 else 0) + count p rest)%nat
  end.

(** The number of super-steps, of AGENT invocations and of vision
    invocations in a log. *)
Definition supersteps : list Event -> nat := count is_Ran.
Definition agent_invocations : list Event -> nat := count is_ModelInvoked.
Definition vision_invocations : list Event -> nat := count is_VisionInvoked.

(** The name and the call id a tool result is filed under. *)
Definition result_of (m : Message) : option (string * string) :=
  match m with
  | ToolMessage _ name tool_call_id => Some (name, tool_call_id)
  | _ => None
  end.

(** The history the checkpointer holds for a thread. *)
Definition history (w : World) (thread_id : string) : list Message :=
  messages (default empty_state (checkpoints w !! thread_id)).

(** The state the graph starts from: the thread's checkpoint with the
    request's input reduced into it. *)
Definition start_state (w : World) (thread_id : string) (userResponses : JsValue)
    (imageAnalysis : option string)
    : GraphState :=
  apply_update (default empty_state (checkpoints w !! thread_id)) (request_input userResponses imageAnalysis).

(** [piece] occurs in [whole]. *)
Definition embeds (piece whole : string) : Prop :=
  exists before after, whole = before +:+ piece +:+ after.

(** An event a run of the workflow built for the given questionnaire and
    image analysis can log: a super-step, a search, or an AGENT invocation
    whose prompt was formatted from these two. *)
Definition same_context `{Environment} (userResponses : JsValue)
    (imageAnalysis : option string) (e : Event) : Prop :=
  match e with
  | Ran _ | SearchInvoked _ _ => True
  | ModelInvoked prompt =>
      exists time state, prompt = formatMessages userResponses imageAnalysis time state
  | FileRead _ | VisionInvoked _ => False
  end.

(** The AGENT invocations a budget of [k] super-steps leaves room for, by
    the node the next super-step runs: the two nodes alternate. *)
Fixpoint agent_share (k : nat) (node : Node) : nat :=
  match k with
  | O => O
  | S k' =>
      match node with
      | agent => S (agent_share k' tools)
      | tools => agent_share k' agent
      end
  end.

(** ** Sample requests and collaborators *)
Module Scenario.

(** A world with no checkpoint and nothing logged. *)
Definition fresh : World := {| checkpoints := ∅; log := [] |}.

(** [product_lookup({ query: "acne serum" })]: no [n]. *)
Definition lookup_call : ToolCall :=
  {| tc_name := "product_lookup";
     tc_args := {[ "query" := JString "acne serum" ]};
     tc_id := "call_1" |}.


Definition is_tool_message (m : Message) : bool :=
  match m with
  | ToolMessage _ _ _ => true
  | _ => false
  end.

(** A chat model that asks for a product lookup on every reply. *)
Definition always_tool (prompt : list Message) : Reply (string * list ToolCall) :=
  Resolved (EmptyString, [lookup_call]).

(** A chat model that answers at once. *)
Definition answer_now (prompt : list Message) : Reply (string * list ToolCall) :=
  Resolved ("Use a gentle cleanser and a salicylic acid serum.", []).


Definition search_ok (query : string) (k : Z) : Reply JsValue :=
  Resolved (JArray [JArray [JString "Salicylic acid serum"; JNumber 1]]).


Definition vision_ok (image : string) : Reply string :=
  Resolved "Oily skin with mild acne on the forehead.".

Definition vision_down (image : string) : Reply string :=
  Rejected "529 Overloaded".

Definition image_path : string := "public/images/face.jpg".

Definition files (path : string) : option string :=
  if bool_decide (path = image_path) then Some "/9j/4AAQSkZJRg==" else None.

(** The questionnaire of the specification's scenario. *)
Definition profile : ChatBody :=
  {| skinType := JString "oily";
     mainConcerns := JString "acne";
     breakoutFrequency := JUndefined;
     productSensitivity := JUndefined;
     skinCareRoutine := JUndefined |}.

Definition empty_object : string := "{}".

Definition looping : Environment := Sample.env always_tool search_ok vision_ok files.
Definition answering : Environment := Sample.env answer_now search_ok vision_ok files.
Definition vision_failing : Environment := Sample.env answer_now search_ok vision_down files.


(** A chat model that makes the given number of product lookups, one per
    reply, and then answers. *)
Definition answer_after (rounds : nat) (prompt : list Message)
    : Reply (string * list ToolCall) :=
  if (rounds <=? length (List.filter is_tool_message prompt))%nat
  then Resolved ("Here is your routine.", [])
  else Resolved (EmptyString, [lookup_call]).

Definition answering_after (rounds : nat) : Environment :=
  Sample.env (answer_after rounds) search_ok vision_ok files.

(** What [Date.now()] read when the sample requests arrived. *)
Definition clock : N := 1732096800123.



(** A continuation message in plain words: no JSON. *)
Definition plain_words : string := "Which serum should I use first?".

End Scenario.

(** * Seeding the product collection

    [src/seed-database.ts] empties the [products] collection and fills it
    again with one document per product: the text to embed, written by
    [createProductSummary], its embedding, and the product record as
    metadata.  The file holds two revisions of the script.  The first asks a
    language model for ten records and checks them against a schema
    ([Synthetic]); the second reads the records from the first sheet of a
    workbook ([Excel]).  Both run the same steps around their source of
    records, and both are modelled here.

    The state is the collection, the connection of the client and what was
    printed on the console.  What lies outside the script (whether a call to
    the database succeeds, the embeddings, the language model, the workbook)
    is a parameter. *)
Module SeedDatabase.

(** ** The conversions of JavaScript the script relies on *)

(** [ToBoolean(v)], the test of [v || d] and of [v ? a : b]. *)
Definition truthy (v : JsValue) : bool :=
  match v with
  | JUndefined | JNull | JBool false | JNumber Z0 | JString EmptyString => false
  | _ => true
  end.

(** [v || d] *)
Definition or_value (v d : JsValue) : JsValue := if truthy v then v else d.

(** A type of numbers with [Number.prototype.toString]. *)
Class JsNumber (number : Type) : Type := Number_toString : number -> string.

(** The integers, printed in decimal. *)
#[global] Instance Z_JsNumber : JsNumber Z := fun n => NilEmpty.string_of_int (Z.to_int n).

(** [String(v)], the conversion a template literal applies to [${v}] and
    [v.toString()] applies to a value that has the method. *)
Fixpoint ToString (v : JsValue) : string :=
  match v with
  | JUndefined => "undefined"
  | JNull => "null"
  | JBool true => "true"
  | JBool false => "false"
  | JNumber n => Number_toString n
  | JString s => s
  | JArray items =>
      join ","
        (map (fun i => match i with
                       | JUndefined | JNull => EmptyString
                       | _ => ToString i
                       end) items)
  | JObject _ => "[object Object]"
  end.

(** [s.split(sep)] for a separator that is not empty, read from the left:
    [skip] counts the characters of a separator found earlier that are still
    to be passed over.  The result is the piece being read and the pieces
    after it. *)
Fixpoint split_from (sep : string) (skip : nat) (s : string) : string * list string :=
  match s with
  | EmptyString => (EmptyString, [])
  | String c s' =>
      match skip with
      | S skip' => split_from sep skip' s'
      | O =>
          if String.prefix sep s
          then (EmptyString,
                let '(piece, pieces) := split_from sep (String.length sep - 1)%nat s' in
                piece :: pieces)
          else let '(piece, pieces) := split_from sep O s' in (String c piece, pieces)
      end
  end.

(** [s.split(sep)]: the pieces of [s] between the occurrences of [sep]; the
    empty separator splits between all characters. *)
Definition split (s sep : string) : list string :=
  match sep with
  | EmptyString => (fun c => String c EmptyString) <$> list_ascii_of_string s
  | _ => let '(piece, pieces) := split_from sep O s in piece :: pieces
  end.

(** ** Failures *)

(** The calls the script makes to the outside. *)
Inductive Call : Type :=
| Connect
| Ping
| DeleteMany
| ReadFile
| LlmInvoke
| ParserParse
| EmbedDocuments
| InsertMany
| Close.

(** What the script can find thrown: a [TypeError] for a method a value
    does not have, or the rejection of a call. *)
Inductive Exception : Type :=
| NotAFunction (method : string)
| CallFailed (call : Call) (message : string).

Inductive Outcome (A : Type) : Type :=
| Done (a : A)
| Threw (e : Exception).
Arguments Done {A} a.
Arguments Threw {A} e.

#[global] Instance Outcome_ret : MRet Outcome := fun A a => Done a.

#[global] Instance Outcome_bind : MBind Outcome := fun A B f m =>
  match m with
  | Done a => f a
  | Threw e => Threw e
  end.

(** [console.log(text)] and [console.error(text, error)] *)
Inductive Line : Type :=
| Logged (text : string)
| Errored (text : string) (error : Exception).

(** ** The collection and the steps on it *)

Section Store.
Context {Product vector : Type}.

(** What [MongoDBAtlasVectorSearch] inserts for a document: its text under
    [textKey], its embedding under [embeddingKey], and its metadata. *)
Record Document : Type := mkDocument {
  embedding_text : string;
  embedding : vector;
  metadata : Product
}.

Record Db : Type := mkDb {
  products : list Document;
  connected : bool;
  console : list Line
}.

(** Whether the calls to the outside succeed, and the embeddings. *)
Class Outside : Type := {
  (** [client.connect()] *)
  connect : Reply unit;
  (** [client.db("admin").command({ ping: 1 })] *)
  ping : Reply unit;
  (** [collection.deleteMany({})] *)
  deleteMany : Reply unit;
  (** [new OpenAIEmbeddings().embedDocuments([text])] *)
  embedDocuments : string -> Reply vector;
  (** [collection.insertMany([document])] *)
  insertMany : Document -> Reply unit;
  (** [client.close()] *)
  close : Reply unit
}.

Definition Script (A : Type) : Type := Db -> Outcome A * Db.

#[global] Instance Script_ret : MRet Script := fun A a db => (Done a, db).

#[global] Instance Script_bind : MBind Script := fun A B f m db =>
  match m db with
  | (Done a, db') => f a db'
  | (Threw e, db') => (Threw e, db')
  end.

(** [await call], for a call that changes the state when it succeeds. *)
Definition await (call : Call) (reply : Reply unit) (change : Db -> Db) : Script unit :=
  fun db =>
    match reply with
    | Resolved _ => (Done tt, change db)
    | Rejected message => (Threw (CallFailed call message), db)
    end.

(** [await call], for a call that yields a value. *)
Definition ask {A} (call : Call) (reply : Reply A) : Script A := fun db =>
  match reply with
  | Resolved a => (Done a, db)
  | Rejected message => (Threw (CallFailed call message), db)
  end.

(** The state with the collection replaced, with the connection of the
    client changed, and with lines printed. *)
Definition with_products (db : Db) (documents : list Document) : Db :=
  {| products := documents; connected := connected db; console := console db |}.

Definition with_connected (db : Db) (open : bool) : Db :=
  {| products := products db; connected := open; console := console db |}.

Definition printed (db : Db) (lines : list Line) : Db :=
  {| products := products db; connected := connected db; console := console db ++ lines |}.

Definition print (line : Line) : Script unit := fun db => (Done tt, printed db [line]).

(** [try { body } catch (error) { handler(error) } finally { finalizer }]:
    the finalizer runs in every case, and what it throws is what leaves the
    statement. *)
Definition try_catch_finally {A} (body : Script A) (handler : Exception -> Script A)
    (finalizer : Script unit) : Script A := fun db =>
  let '(outcome, db1) :=
    match body db with
    | (Done a, db') => (Done a, db')
    | (Threw e, db') => handler e db'
    end in
  match finalizer db1 with
  | (Done _, db2) => (outcome, db2)
  | (Threw e, db2) => (Threw e, db2)
  end.

(** [for (const x of l) { body(x) }] *)
Fixpoint for_of {A} (l : list A) (body : A -> Script unit) : Script unit :=
  match l with
  | [] => mret tt
  | x :: l' => _ ← body x; for_of l' body
  end.

Context `{Outside}.

Definition client_connect : Script unit :=
  await Connect connect (fun db => with_connected db true).

Definition admin_ping : Script unit := await Ping ping id.

Definition collection_deleteMany : Script unit :=
  await DeleteMany deleteMany (fun db => with_products db []).

Definition client_close : Script unit :=
  await Close close (fun db => with_connected db false).

(** [{ pageContent, metadata }] *)
Record Summarized : Type := mkSummarized {
  pageContent : string;
  record_metadata : Product
}.

(** [MongoDBAtlasVectorSearch.fromDocuments([record], new OpenAIEmbeddings(),
      { collection, indexName, textKey: "embedding_text",
        embeddingKey: "embedding" })]: the text is embedded and the document
    inserted at the end of the collection. *)
Definition fromDocuments (record : Summarized) : Script unit :=
  v ← ask EmbedDocuments (embedDocuments (pageContent record));
  let document :=
    {| embedding_text := pageContent record;
       embedding := v;
       metadata := record_metadata record |} in
  await InsertMany (insertMany document) (fun db =>
    with_products db (products db ++ [document])).

(** [async (record) => ({ pageContent: await createProductSummary(record),
      metadata: { ...record } })] *)
Definition summarize (createProductSummary : Product -> string) (record : Product)
    : Summarized :=
  {| pageContent := createProductSummary record; record_metadata := record |}.

(** The body of the loop over [recordsWithSummaries]; [product_id] reads the
    identifier of a record. *)
Definition save (product_id : Product -> string) (record : Summarized) : Script unit :=
  _ ← fromDocuments record;
  print (Logged ("Successfully processed & saved record: "
                 +:+ product_id (record_metadata record))).

(** [seedDatabase], which the two revisions share word for word around the
    source of their records, [load], and their [createProductSummary]. *)
Definition seedDatabase_from (load : Script (list Product))
    (createProductSummary : Product -> string) (product_id : Product -> string)
    : Script unit :=
  try_catch_finally
    (_ ← client_connect;
     _ ← admin_ping;
     _ ← print (Logged "Pinged your deployment. You successfully connected to MongoDB!");
     _ ← collection_deleteMany;
     syntheticData ← load;
     let recordsWithSummaries := summarize createProductSummary <$> syntheticData in
     _ ← for_of recordsWithSummaries (save product_id);
     print (Logged "Database seeding completed"))
    (fun error => print (Errored "Error seeding database:" error))
    client_close.

(** [seedDatabase().catch(console.error)] *)
Definition run (seedDatabase : Script unit) : Db -> Db := fun db =>
  match seedDatabase db with
  | (Done _, db') => db'
  | (Threw e, db') => printed db' [Errored EmptyString e]
  end.

End Store.

Arguments Document : clear implicits.
Arguments Db : clear implicits.
Arguments Outside : clear implicits.
Arguments Script : clear implicits.
Arguments Summarized : clear implicits.

(** ** The first revision: records written by a language model *)
Module Synthetic.

Section Records.
Context {number : Type} `{JsNumber number}.

Record Price : Type := mkPrice {
  amount : number;
  currency : string
}.

Record Manufacturer : Type := mkManufacturer {
  name : string;
  address : string;
  country : string
}.

Record Rating : Type := mkRating {
  rating_date : string;
  rating : number;
  comments : option string
}.

Record Availability : Type := mkAvailability {
  online : bool;
  in_store : bool
}.

(** [z.infer<typeof HealthCareProductSchema>]: an optional key is absent
    ([None]) or holds a value of its type. *)
Record Product : Type := mkProduct {
  product_id : string;
  product_name : string;
  category : string;
  description : string;
  ingredients : list string;
  usage_instructions : string;
  price : Price;
  stock : number;
  manufacturer_details : Manufacturer;
  ratings : list Rating;
  benefits : list string;
  precautions : option string;
  related_products : option (list string);
  availability : Availability;
  expiration_date : option string;
  notes : option string
}.

(** [x ? then_(x) : ""] on an optional string: absent and empty are both
    falsy. *)
Definition if_string (x : option string) (then_ : string -> string) : string :=
  match x with
  | Some ((String _ _) as s) => then_ s
  | _ => EmptyString
  end.

(** [x ? then_(x) : ""] on an optional array: every array is truthy. *)
Definition if_array (x : option (list string)) (then_ : list string -> string) : string :=
  match x with
  | Some l => then_ l
  | None => EmptyString
  end.

(** [`${b}`] *)
Definition Boolean_toString (b : bool) : string := if b then "true" else "false".

(** [`Rated ${rating.rating} on ${rating.rating_date}${rating.comments ?
      `: ${rating.comments}` : ""}`] *)
Definition rated (r : Rating) : string :=
  "Rated " +:+ Number_toString (rating r) +:+ " on " +:+ rating_date r
  +:+ if_string (comments r) (fun c => ": " +:+ c).

Definition createProductSummary (product : Product) : string :=
  let productDetails :=
    product_name product +:+ " (" +:+ category product +:+ "): " +:+ description product in
  let ingredients := "Ingredients: " +:+ join ", " (ingredients product) in
  let usageInstructions := "Usage: " +:+ usage_instructions product in
  let price :=
    "Price: " +:+ Number_toString (amount (price product)) +:+ " "
    +:+ currency (price product) in
  let manufacturerDetails :=
    "Manufactured by " +:+ name (manufacturer_details product) +:+ ", "
    +:+ address (manufacturer_details product) +:+ ", "
    +:+ country (manufacturer_details product) in
  let stock := "Stock Available: " +:+ Number_toString (stock product) in
  let ratings := join " " (rated <$> ratings product) in
  let benefits := "Benefits: " +:+ join ", " (benefits product) in
  let precautions := if_string (precautions product) (fun p => "Precautions: " +:+ p) in
  let relatedProducts :=
    if_array (related_products product) (fun l => "Related Products: " +:+ join ", " l) in
  let availability :=
    "Available online: " +:+ Boolean_toString (online (availability product))
    +:+ ", in-store: " +:+ Boolean_toString (in_store (availability product)) in
  let expirationDate := if_string (expiration_date product) (fun d => "Expires on: " +:+ d) in
  let notes := if_string (notes product) (fun t => "Notes: " +:+ t) in
  productDetails +:+ ". " +:+ ingredients +:+ ". " +:+ usageInstructions +:+ ". "
  +:+ price +:+ ". " +:+ manufacturerDetails +:+ ". " +:+ stock +:+ ". Reviews: "
  +:+ ratings +:+ ". " +:+ benefits +:+ ". " +:+ precautions +:+ " " +:+ relatedProducts
  +:+ ". " +:+ availability +:+ ". " +:+ expirationDate +:+ ". " +:+ notes.

(** The language model and the parser built from the schema. *)
Class Generator : Type := {
  (** [parser.getFormatInstructions()] *)
  getFormatInstructions : string;
  (** [llm.invoke(prompt)], its [content] *)
  llm_invoke : string -> Reply string;
  (** [parser.parse(text)]: the records the text holds, checked against
      [z.array(HealthCareProductSchema)], or a rejection. *)
  parser_parse : string -> Reply (list Product)
}.

Context {vector : Type} `{Outside Product vector} `{Generator}.

Definition generation_prompt : string :=
  "You are a helpful assistant that generates healthcare product data. Generate 10 fictional healthcare product records. Each record should include the following fields: product_id, product_name, category, description, ingredients, usage_instructions, price (with amount and currency), stock, manufacturer_details (with name, address, and country), ratings (with rating_date, rating, and optional comments), benefits, optional precautions, optional related_products, availability (with online and in_store), optional expiration_date, and optional notes. Ensure variety in the data and realistic values.

  " +:+ getFormatInstructions.

Definition generateSyntheticData : Script Product vector (list Product) :=
  _ ← print (Logged "Generating synthetic data...");
  response ← ask LlmInvoke (llm_invoke generation_prompt);
  ask ParserParse (parser_parse response).

Definition seedDatabase : Script Product vector unit :=
  seedDatabase_from generateSyntheticData createProductSummary product_id.

End Records.

End Synthetic.

(** ** The second revision: records read from a workbook *)
Module Excel.

(** A row of [xlsx.utils.sheet_to_json(sheet)]: the cells of a line of the
    sheet under the headers of their columns, an empty cell having no key. *)
Abbreviation Row := (gmap string JsValue).

(** The records [readExcelFile] builds.  Nothing checks them against
    [HealthCareProductSchema], which only gives [Product] its type: the
    fields copied from a cell hold whatever the cell held. *)
Record Product : Type := mkProduct {
  product_id : string;
  product_brand : JsValue;
  category : JsValue;
  product_name : JsValue;
  description : JsValue;
  benefits : list string;
  ingredients : list string;
  beauty_needs : JsValue;
  beauty_justification : JsValue;
  hair_skin_type : JsValue;
  product_use : JsValue;
  product_application : JsValue
}.

(** [v.split(sep)]: only a string has the method. *)
Definition split_method (v : JsValue) (sep : string) : Outcome (list string) :=
  match v with
  | JString s => Done (split s sep)
  | _ => Threw (NotAFunction "split")
  end.

(** The callback of [rows.map((row, index) => ({ ... }))]. *)
Definition readRow (row : Row) (index : nat) : Outcome Product :=
  benefits ← split_method (or_value (prop row "Benefits") (JString EmptyString)) ", ";
  ingredients ← split_method (or_value (prop row "Ingredients list") (JString EmptyString)) ", ";
  mret {| product_id :=
                 ToString
                   (or_value (prop row "GTIN")
                      (JString ("product_" +:+ Number_toString (Z.of_nat index))));
               product_brand := or_value (prop row "Brand") (JString "Unknown Brand");
               category := or_value (prop row "Marketing range") (JString "General");
               product_name :=
                 or_value (prop row "Commercial name") (JString "Unknown Product");
               description :=
                 or_value (prop row "Product description")
                   (JString "No description provided");
               benefits := benefits;
               ingredients := ingredients;
               beauty_needs := or_value (prop row "Beauty needs") (JString EmptyString);
               beauty_justification :=
                 or_value (prop row "Beauty justification") (JString EmptyString);
               hair_skin_type := or_value (prop row "Hair/skin Types") (JString EmptyString);
               product_use := or_value (prop row "Frequency of use") (JString EmptyString);
               product_application :=
                 or_value (prop row "Application") (JString EmptyString) |}.

(** [rows.map(callback)] from the index [index] on: the first row whose
    callback throws ends the map. *)
Fixpoint map_rows (rows : list Row) (index : nat) : Outcome (list Product) :=
  match rows with
  | [] => Done []
  | row :: rows' =>
      product ← readRow row index;
      products ← map_rows rows' (S index);
      mret (product :: products)
  end.

Section Workbook.

(** [xlsx.utils.sheet_to_json(workbook.Sheets[workbook.SheetNames[0]])] for
    [workbook = xlsx.readFile(filePath)]: the rows of the first sheet, or
    the failure to read the file. *)
Context (sheet_to_json : string -> Reply (list Row)).

Definition readExcelFile (filePath : string) : Outcome (list Product) :=
  match sheet_to_json filePath with
  | Rejected message => Threw (CallFailed ReadFile message)
  | Resolved rows => map_rows rows O
  end.

Definition createProductSummary (product : Product) : string :=
  let productDetails :=
    ToString (product_name product) +:+ " (" +:+ ToString (category product) +:+ "): "
    +:+ ToString (description product) in
  let ingredients := "Ingredients: " +:+ join ", " (ingredients product) in
  let benefits := "Benefits: " +:+ join ", " (benefits product) in
  let productUse := "Use: " +:+ ToString (product_use product) in
  let application := "Application: " +:+ ToString (product_application product) in
  productDetails +:+ ". " +:+ ingredients +:+ ". " +:+ benefits +:+ ". " +:+ productUse
  +:+ ". " +:+ application.

Context {vector : Type} `{Outside Product vector}.

Definition seedDatabase : Script Product vector unit :=
  seedDatabase_from (fun db => (readExcelFile "AveneData.xlsx", db)) createProductSummary product_id.

End Workbook.

End Excel.

End SeedDatabase.

(** ** What the theorems on the seeding observe *)

(** A cell on which [(cell || "").split] can be called: a string, or a
    value that [||] replaces by the empty string. *)
Definition splittable (v : JsValue) : bool :=
  match v with
  | JString _ => true
  | _ => negb (SeedDatabase.truthy v)
  end.

(** A row whose two list cells can be split. *)
Definition row_ok (row : gmap string JsValue) : bool :=
  splittable (prop row "Benefits") && splittable (prop row "Ingredients list").

(** The text of a cell, or [default] in the place of an empty one:
    [`${row[key] || default}`]. *)
Definition cell_text (row : gmap string JsValue) (key default : string) : string :=
  SeedDatabase.ToString (SeedDatabase.or_value (prop row key) (JString default)).

(** The document of a record: its summary, the embedding of the summary,
    and the record. *)
Definition stored {Product vector : Type} `{SeedDatabase.Outside Product vector}
    (createProductSummary : Product -> string)
    (document : SeedDatabase.Document Product vector) (record : Product) : Prop :=
  SeedDatabase.embedding_text document = createProductSummary record
  /\ SeedDatabase.metadata document = record
  /\ SeedDatabase.embedDocuments (createProductSummary record)
     = Resolved (SeedDatabase.embedding document)
  /\ SeedDatabase.insertMany document = Resolved tt.

(** A record that can be stored: its summary is embedded and its document
    inserted. *)
Definition storable {Product vector : Type} `{SeedDatabase.Outside Product vector}
    (createProductSummary : Product -> string) (record : Product) : Prop :=
  exists document, stored createProductSummary document record.

(** A record the script fails on with [e]: the embedding of its summary is
    rejected, or the insertion of its document is. *)
Definition fails_with {Product vector : Type} `{SeedDatabase.Outside Product vector}
    (createProductSummary : Product -> string) (record : Product)
    (e : SeedDatabase.Exception) : Prop :=
  (exists message,
      SeedDatabase.embedDocuments (createProductSummary record) = Rejected message
      /\ e = SeedDatabase.CallFailed SeedDatabase.EmbedDocuments message)
  \/ (exists v message,
        SeedDatabase.embedDocuments (createProductSummary record) = Resolved v
        /\ SeedDatabase.insertMany
             {| SeedDatabase.embedding_text := createProductSummary record;
                SeedDatabase.embedding := v;
                SeedDatabase.metadata := record |} = Rejected message
        /\ e = SeedDatabase.CallFailed SeedDatabase.InsertMany message).

(** The line printed for a stored record. *)
Definition saved_line {Product : Type} (product_id : Product -> string) (record : Product)
    : SeedDatabase.Line :=
  SeedDatabase.Logged ("Successfully processed & saved record: " +:+ product_id record).

Definition pinged_line : SeedDatabase.Line :=
  SeedDatabase.Logged "Pinged your deployment. You successfully connected to MongoDB!".

Definition completed_line : SeedDatabase.Line :=
  SeedDatabase.Logged "Database seeding completed".

Definition generating_line : SeedDatabase.Line :=
  SeedDatabase.Logged "Generating synthetic data...".




(** ** Sample sheets and collaborators of the seeding script *)
Module SeedScenario.
Import SeedDatabase.

(** A row with every column filled. *)
Definition cleanser : gmap string JsValue :=
  list_to_map
    [("GTIN", JNumber 3282770207774);
     ("Brand", JString "Avene");
     ("Marketing range", JString "Cleanance");
     ("Commercial name", JString "Cleanance Cleansing Gel");
     ("Product description", JString "Soap-free gel for oily skin");
     ("Benefits", JString "Purifies, Mattifies");
     ("Ingredients list", JString "Avene Thermal Spring Water, Zinc Gluconate");
     ("Frequency of use", JString "Daily");
     ("Application", JString "Face")].

(** A row that has a name and nothing else. *)
Definition spray : gmap string JsValue :=
  {[ "Commercial name" := JString "Thermal Spring Water" ]}.

(** A row whose [Benefits] cell holds a number. *)
Definition miskeyed : gmap string JsValue :=
  {[ "Commercial name" := JString "Cicalfate Cream"; "Benefits" := JNumber 5 ]}.

(** The records of the second and of the first sample row, at the given
    index of a sheet. *)
Definition spray_record (index : nat) : Excel.Product :=
  {| Excel.product_id := "product_" +:+ Number_toString (Z.of_nat index);
     Excel.product_brand := JString "Unknown Brand";
     Excel.category := JString "General";
     Excel.product_name := JString "Thermal Spring Water";
     Excel.description := JString "No description provided";
     Excel.benefits := [EmptyString];
     Excel.ingredients := [EmptyString];
     Excel.beauty_needs := JString EmptyString;
     Excel.beauty_justification := JString EmptyString;
     Excel.hair_skin_type := JString EmptyString;
     Excel.product_use := JString EmptyString;
     Excel.product_application := JString EmptyString |}.

Definition cleanser_record : Excel.Product :=
  {| Excel.product_id := "3282770207774";
     Excel.product_brand := JString "Avene";
     Excel.category := JString "Cleanance";
     Excel.product_name := JString "Cleanance Cleansing Gel";
     Excel.description := JString "Soap-free gel for oily skin";
     Excel.benefits := ["Purifies"; "Mattifies"];
     Excel.ingredients := ["Avene Thermal Spring Water"; "Zinc Gluconate"];
     Excel.beauty_needs := JString EmptyString;
     Excel.beauty_justification := JString EmptyString;
     Excel.hair_skin_type := JString EmptyString;
     Excel.product_use := JString "Daily";
     Excel.product_application := JString "Face" |}.

(** A workbook whose first sheet holds the given rows; no other file
    exists. *)
Definition workbook (rows : list (gmap string JsValue)) (filePath : string)
    : Reply (list (gmap string JsValue)) :=
  if bool_decide (filePath = "AveneData.xlsx")
  then Resolved rows
  else Rejected "ENOENT: no such file or directory".

(** A document left in the collection by an earlier run. *)
Definition stale {Product : Type} (record : Product) : Document Product (list Z) :=
  {| embedding_text := "An old summary"; embedding := [0]; metadata := record |}.

(** A database that answers every call, with embeddings of one number. *)
Definition answering_db {Product : Type} : Outside Product (list Z) :=
  {| connect := Resolved tt;
     ping := Resolved tt;
     deleteMany := Resolved tt;
     embedDocuments := fun text => Resolved [Z.of_nat (String.length text)];
     insertMany := fun _ => Resolved tt;
     close := Resolved tt |}.

(** The same, with an embedding service that rejects the texts longer than
    120 characters. *)
Definition limited_db {Product : Type} : Outside Product (list Z) :=
  {| connect := Resolved tt;
     ping := Resolved tt;
     deleteMany := Resolved tt;
     embedDocuments := fun text =>
       if (120 <? String.length text)%nat
       then Rejected "429 Too Many Requests"
       else Resolved [Z.of_nat (String.length text)];
     insertMany := fun _ => Resolved tt;
     close := Resolved tt |}.

(** The collection before a run: one document of an earlier run. *)
Definition seeded_before {Product : Type} (record : Product) : Db Product (list Z) :=
  {| products := [stale record]; connected := false; console := [] |}.

(** A record as the language model may write one. *)
Definition serum : @Synthetic.Product Z :=
  {| Synthetic.product_id := "P001";
     Synthetic.product_name := "Clear Skin Serum";
     Synthetic.category := "skin care";
     Synthetic.description := "A light serum for oily skin";
     Synthetic.ingredients := ["Salicylic Acid"; "Niacinamide"];
     Synthetic.usage_instructions := "Apply at night";
     Synthetic.price := {| Synthetic.amount := 25; Synthetic.currency := "USD" |};
     Synthetic.stock := 120;
     Synthetic.manufacturer_details :=
       {| Synthetic.name := "DermaLab";
          Synthetic.address := "1 Lab Way";
          Synthetic.country := "France" |};
     Synthetic.ratings :=
       [{| Synthetic.rating_date := "2024-01-05";
           Synthetic.rating := 5;
           Synthetic.comments := Some "Works well" |};
        {| Synthetic.rating_date := "2024-02-11";
           Synthetic.rating := 4;
           Synthetic.comments := None |}];
     Synthetic.benefits := ["Reduces acne"; "Controls oil"];
     Synthetic.precautions := None;
     Synthetic.related_products := Some [];
     Synthetic.availability := {| Synthetic.online := true; Synthetic.in_store := false |};
     Synthetic.expiration_date := Some "2026-01-01";
     Synthetic.notes := None |}.

(** A language model that replies with some text, and a parser that reads
    the given records in a reply that starts with a bracket. *)
Definition generator (records : list (@Synthetic.Product Z)) : @Synthetic.Generator Z :=
  {| Synthetic.getFormatInstructions := "Answer with a JSON array of records.";
     Synthetic.llm_invoke := fun prompt => Resolved "[ ... ]";
     Synthetic.parser_parse := fun text =>
       match text with
       | String "["%char _ => Resolved records
       | _ => Rejected "Failed to parse"
       end |}.

(** A language model whose reply is no JSON. *)
Definition chatty (records : list (@Synthetic.Product Z)) : @Synthetic.Generator Z :=
  {| Synthetic.getFormatInstructions := "Answer with a JSON array of records.";
     Synthetic.llm_invoke := fun prompt => Resolved "Here are ten products for you!";
     Synthetic.parser_parse := fun text =>
       match text with
       | String "["%char _ => Resolved records
       | _ => Rejected "Failed to parse"
       end |}.

End SeedScenario.

(** * Proofs *)

(** ** The monad and the steps of the workflow *)

Section Proofs.
Context `{Environment}.

Lemma count_app p l1 l2 : count p (l1 ++ l2) = (count p l1 + count p l2)%nat.
Proof. induction l1 as [|e l1 IH]; simpl; [done | rewrite IH; lia]. Qed.

Lemma logged_nil w : logged w [] = w.
Proof. destruct w; unfold logged; simpl. by rewrite app_nil_r. Qed.

Lemma logged_logged w l1 l2 : logged (logged w l1) l2 = logged w (l1 ++ l2).
Proof. unfold logged; simpl. by rewrite app_assoc. Qed.

Lemma bind_run {A B} (m : M A) (f : A -> M B) w :
  (m ≫= f) w = match m w with
               | (Ok a, w') => f a w'
               | (Throw e, w') => (Throw e, w')
               end.
Proof. reflexivity. Qed.

Ltac run_monad :=
  unfold mbind, M_bind, mret, M_ret, throw, try_catch, emit, lift_result,
    now_iso, get_checkpoint, put_checkpoint; simpl.

Lemma callModel_run ur ia st w :
  callModel ur ia st w =
  let prompt := formatMessages ur ia (toISOString_now (log w)) st in
  match model_invoke prompt with
  | Resolved (text, calls) =>
      (Ok (messages_update [AIMessage text calls]), logged w [ModelInvoked prompt])
  | Rejected msg =>
      (Throw (ModelInvocationError ChatModel msg), logged w [ModelInvoked prompt])
  end.
Proof.
  unfold callModel, logged. run_monad.
  destruct (model_invoke _) as [[text calls]|msg]; reflexivity.
Qed.

Lemma run_tool_call_run call w :
  run_tool_call toolNode call w =
  if bool_decide (tc_name call = "product_lookup") then
    match prodLookup_schema (tc_args call) with
    | None => (Ok (tool_error_message ToolInputParsingException call), w)
    | Some input =>
        let k := default 4 (n input) in
        let w1 := logged w [SearchInvoked (query input) k] in
        match similaritySearchWithScore (query input) k with
        | Resolved result =>
            (Ok (ToolMessage (JSON_stringify result) "product_lookup" (tc_id call)), w1)
        | Rejected msg => (Ok (tool_error_message (ToolExecutionError msg) call), w1)
        end
    end
  else (Ok (tool_error_message (ToolNotFound (tc_name call)) call), w).
Proof.
  unfold run_tool_call, toolNode, new_ToolNode, the_tools; simpl.
  rewrite (bool_decide_ext ("product_lookup" = tc_name call) (tc_name call = "product_lookup")) by done.
  destruct (bool_decide _); simpl; [|reflexivity].
  unfold prodLookup_func, logged. run_monad.
  destruct (prodLookup_schema _) as [input|]; simpl; [|reflexivity].
  destruct (similaritySearchWithScore _ _); reflexivity.
Qed.


Lemma count_all_searches p searches :
  (forall q k, p (SearchInvoked q k) = false) ->
  Forall (fun e => is_SearchInvoked e = true) searches -> count p searches = O.
Proof.
  intros Hp. induction 1 as [|e l He _ IH]; simpl; [done|].
  destruct e; try discriminate. by rewrite Hp, IH.
Qed.

Lemma tool_calls_run calls w :
  exists outs searches,
    mapM (run_tool_call toolNode) calls w = (Ok outs, logged w searches)
    /\ length outs = length calls
    /\ Forall (fun e => is_SearchInvoked e = true) searches.
Proof.
  revert w. induction calls as [|call calls IH]; intros w.
  - exists [], []. rewrite logged_nil. repeat split; constructor.
  - simpl. rewrite bind_run, run_tool_call_run.
    assert (exists m searches, (if bool_decide (tc_name call = "product_lookup")
              then match prodLookup_schema (tc_args call) with
                   | None => (Ok (tool_error_message ToolInputParsingException call), w)
                   | Some input =>
                       let k := default 4 (n input) in
                       let w1 := logged w [SearchInvoked (query input) k] in
                       match similaritySearchWithScore (query input) k with
                       | Resolved result =>
                           (Ok (ToolMessage (JSON_stringify result) "product_lookup" (tc_id call)), w1)
                       | Rejected msg => (Ok (tool_error_message (ToolExecutionError msg) call), w1)
                       end
                   end
              else (Ok (tool_error_message (ToolNotFound (tc_name call)) call), w))
            = (Ok m, logged w searches)
            /\ Forall (fun e => is_SearchInvoked e = true) searches) as (m & s1 & -> & Hs1).
    { destruct (bool_decide _).
      - destruct (prodLookup_schema _) as [input|].
        + simpl. destruct (similaritySearchWithScore _ _);
            eexists _, [_]; split; try reflexivity; repeat constructor.
        + eexists _, []. rewrite logged_nil. split; [reflexivity | constructor].
      - eexists _, []. rewrite logged_nil. split; [reflexivity | constructor]. }
    destruct (IH (logged w s1)) as (outs & s2 & Heq & Hlen & Hs2).
    rewrite bind_run, Heq. exists (m :: outs), (s1 ++ s2)%list.
    rewrite logged_logged. repeat split; simpl; [by rewrite Hlen | by apply Forall_app].
Qed.

Lemma last_snoc_message (ms : list Message) m : last (ms ++ [m]) = Some m.
Proof. apply last_snoc. Qed.

Lemma run_steps_agent ur ia tid k st w :
  run_steps (workflow ur ia) tid (S k) agent st w =
  let prompt := formatMessages ur ia (toISOString_now (log w ++ [Ran agent])) st in
  let w1 := logged w [Ran agent; ModelInvoked prompt] in
  match model_invoke prompt with
  | Rejected msg => (Throw (ModelInvocationError ChatModel msg), w1)
  | Resolved (text, calls) =>
      let st' := apply_update st (messages_update [AIMessage text calls]) in
      let w2 := checkpointed w1 tid st' in
      match k with
      | O => (Throw GraphRecursionError, w2)
      | S _ =>
          match calls with
          | [] => (Ok st', w2)
          | _ :: _ => run_steps (workflow ur ia) tid k tools st' w2
          end
      end
  end.
Proof.
  cbn [run_steps]. rewrite bind_run. unfold emit at 1.
  rewrite bind_run. cbn [nodes workflow]. rewrite callModel_run. cbn [log logged].
  cbv zeta. destruct (model_invoke _) as [[text calls]|msg].
  - rewrite bind_run. unfold lift_result at 1.
    cbn [edges workflow]. unfold shouldContinue.
    cbn [apply_update messages messages_update u_messages].
    unfold messages_reducer. rewrite last_snoc_message. cbn [tool_calls].
    destruct calls; rewrite bind_run; unfold put_checkpoint at 1; destruct k;
      unfold logged, checkpointed; cbn [log checkpoints]; rewrite <- app_assoc; reflexivity.
  - unfold logged; cbn [log checkpoints]; rewrite <- app_assoc; reflexivity.
Qed.

Lemma run_steps_tools ur ia tid k st w :
  run_steps (workflow ur ia) tid (S k) tools st w =
  match last (messages st) with
  | Some (AIMessage _ calls) =>
      match mapM (run_tool_call toolNode) calls (logged w [Ran tools]) with
      | (Ok outs, w1) =>
          let st' := apply_update st (messages_update outs) in
          let w2 := checkpointed w1 tid st' in
          match k with
          | O => (Throw GraphRecursionError, w2)
          | S _ => run_steps (workflow ur ia) tid k agent st' w2
          end
      | (Throw e, w1) => (Throw e, w1)
      end
  | _ => (Throw ToolNodeInputError, logged w [Ran tools])
  end.
Proof.
  cbn [run_steps]. rewrite bind_run. unfold emit at 1.
  rewrite bind_run. cbn [nodes workflow]. unfold ToolNode_run.
  destruct (last (messages st)) as [[| |c calls|]|]; try reflexivity.
  rewrite bind_run.
  destruct (mapM _ calls _) as [[outs|e] w1]; [|reflexivity].
  unfold mret at 1, M_ret at 1. rewrite bind_run. unfold lift_result at 1.
  cbn [edges workflow]. rewrite bind_run. unfold put_checkpoint at 1.
  destruct k; reflexivity.
Qed.

Lemma searches_counts searches :
  Forall (fun e => is_SearchInvoked e = true) searches ->
  supersteps searches = O /\ agent_invocations searches = O /\ vision_invocations searches = O.
Proof. intros Hs. repeat split; apply count_all_searches; auto. Qed.

Ltac count_events :=
  unfold supersteps, agent_invocations, vision_invocations in *;
  cbn [agent_share] in *; repeat rewrite count_app; simpl; try lia.

Lemma searches_context ur ia searches :
  Forall (fun e => is_SearchInvoked e = true) searches ->
  Forall (same_context ur ia) searches.
Proof. intros Hs. eapply Forall_impl; [exact Hs|]. intros []; simpl; done. Qed.

Ltac context_events :=
  repeat first [ apply Forall_nil
               | apply Forall_cons; split
               | apply Forall_app; split ];
  simpl; eauto using searches_context.

Lemma run_steps_bounds ur ia tid k : forall node st w,
  exists added,
    log (snd (run_steps (workflow ur ia) tid k node st w)) = log w ++ added
    /\ (supersteps added <= k)%nat
    /\ (agent_invocations added <= agent_share k node)%nat
    /\ vision_invocations added = O
    /\ Forall (same_context ur ia) added.
Proof.
  induction k as [|k IH]; intros node st w.
  - exists []. simpl. rewrite app_nil_r. repeat split; count_events. constructor.
  - destruct node; cbn [agent_share].
    + rewrite run_steps_agent. cbv zeta.
      destruct (model_invoke _) as [[text calls]|msg].
      * destruct k as [|k'].
        { eexists [_; _]. repeat split; count_events. context_events. }
        destruct calls as [|call calls].
        { eexists [_; _]. repeat split; count_events. context_events. }
        match goal with |- context [run_steps _ _ _ tools ?st' ?w2] =>
          destruct (IH tools st' w2) as (added & Hlog & Hs & Ha & Hv & Hc) end.
        rewrite Hlog. cbn [log checkpointed logged]. rewrite <- app_assoc.
        eexists. split; [reflexivity|]. repeat split; count_events. context_events.
      * eexists [_; _]. repeat split; count_events. context_events.
    + rewrite run_steps_tools.
      destruct (last (messages st)) as [[| |c calls|]|];
        try (eexists [_]; repeat split; count_events; context_events; fail).
      destruct (tool_calls_run calls (logged w [Ran tools])) as (outs & searches & -> & _ & Hs).
      pose proof (searches_context ur ia _ Hs) as Hsc.
      apply searches_counts in Hs as (Hs1 & Hs2 & Hs3). cbv zeta.
      destruct k as [|k'].
      { cbn [snd log checkpointed logged]. rewrite <- app_assoc.
        eexists. split; [reflexivity|]. repeat split; count_events. context_events. }
      match goal with |- context [run_steps _ _ _ agent ?st' ?w2] =>
        destruct (IH agent st' w2) as (added & Hlog & Hs & Ha & Hv & Hc) end.
      rewrite Hlog. cbn [log checkpointed logged]. rewrite <- !app_assoc.
      eexists. split; [reflexivity|]. repeat split; count_events. context_events.
Qed.

Lemma run_steps_always_tool ur ia tid :
  (forall prompt, exists text calls,
      model_invoke prompt = Resolved (text, calls) /\ calls <> []) ->
  forall k node st w,
    (node = tools -> exists c calls, last (messages st) = Some (AIMessage c calls)) ->
    exists added,
      fst (run_steps (workflow ur ia) tid k node st w) = Throw GraphRecursionError
      /\ log (snd (run_steps (workflow ur ia) tid k node st w)) = log w ++ added
      /\ supersteps added = k
      /\ agent_invocations added = agent_share k node.
Proof.
  intros Hmodel. induction k as [|k IH]; intros node st w Hlast.
  - exists []. simpl. rewrite app_nil_r. repeat split; count_events.
  - destruct node.
    + rewrite run_steps_agent. cbv zeta.
      destruct (Hmodel (formatMessages ur ia (toISOString_now (log w ++ [Ran agent])) st))
        as (text & calls & -> & Hcalls).
      destruct k as [|k'].
      { eexists [_; _]. repeat split; count_events. }
      destruct calls as [|call calls]; [done|].
      match goal with |- context [run_steps _ _ _ tools ?st' ?w2] =>
        destruct (IH tools st' w2) as (added & Hres & Hlog & Hs & Ha) end.
      { intros _. eexists _, _. cbn [apply_update messages messages_update u_messages].
        apply last_snoc. }
      rewrite Hres, Hlog. cbn [log checkpointed logged]. rewrite <- app_assoc.
      eexists. split; [reflexivity|]. split; [reflexivity|]. split; count_events.
    + destruct (Hlast eq_refl) as (c & calls & Hl).
      rewrite run_steps_tools, Hl.
      destruct (tool_calls_run calls (logged w [Ran tools])) as (outs & searches & -> & _ & Hs).
      apply searches_counts in Hs as (Hs1 & Hs2 & Hs3). cbv zeta.
      destruct k as [|k'].
      { cbn [fst snd log checkpointed logged]. rewrite <- app_assoc.
        eexists. split; [reflexivity|]. split; [reflexivity|]. split; count_events. }
      match goal with |- context [run_steps _ _ _ agent ?st' ?w2] =>
        destruct (IH agent st' w2) as (added & Hres & Hlog & Hs & Ha) end.
      { discriminate. }
      rewrite Hres, Hlog. cbn [log checkpointed logged]. rewrite <- !app_assoc.
      eexists. split; [reflexivity|]. split; [reflexivity|]. split; count_events.
Qed.

Lemma run_steps_Ok ur ia tid k : forall node st w final w',
  run_steps (workflow ur ia) tid k node st w = (Ok final, w') ->
  exists text prompt before,
    last (messages final) = Some (AIMessage text [])
    /\ log w' = log w ++ before ++ [ModelInvoked prompt]
    /\ model_invoke prompt = Resolved (text, []).
Proof.
  induction k as [|k IH]; intros node st w final w' Hrun; [discriminate|].
  destruct node.
  - rewrite run_steps_agent in Hrun. cbv zeta in Hrun.
    destruct (model_invoke _) as [[text calls]|msg] eqn:Hreply; [|discriminate].
    destruct k as [|k']; [discriminate|].
    destruct calls as [|call calls].
    + injection Hrun as <- <-. eexists text, _, [Ran agent].
      cbn [apply_update messages messages_update u_messages log checkpointed logged].
      split; [apply last_snoc|]. split; [reflexivity|]. exact Hreply.
    + apply IH in Hrun as (text' & prompt & before & Hl & Hlog & Hr).
      exists text', prompt, ([Ran agent; ModelInvoked (formatMessages ur ia
                (toISOString_now (log w ++ [Ran agent])) st)] ++ before).
      split; [exact Hl|]. split; [|exact Hr].
      rewrite Hlog. cbn [log checkpointed logged]. by rewrite <- !app_assoc.
  - rewrite run_steps_tools in Hrun.
    destruct (last (messages st)) as [[| |c calls|]|]; try discriminate.
    destruct (tool_calls_run calls (logged w [Ran tools])) as (outs & searches & Hm & _ & _).
    rewrite Hm in Hrun. cbv zeta in Hrun.
    destruct k as [|k']; [discriminate|].
    apply IH in Hrun as (text' & prompt & before & Hl & Hlog & Hr).
    exists text', prompt, ([Ran tools] ++ searches ++ before).
    split; [exact Hl|]. split; [|exact Hr].
    rewrite Hlog. cbn [log checkpointed logged]. by rewrite <- !app_assoc.
Qed.

Lemma history_logged w events tid : history (logged w events) tid = history w tid.
Proof. reflexivity. Qed.

Lemma history_checkpointed w tid st : history (checkpointed w tid st) tid = messages st.
Proof. unfold history, checkpointed; cbn [checkpoints]. by rewrite lookup_insert_eq. Qed.

Lemma run_steps_history ur ia tid k : forall node st w,
  history w tid = messages st ->
  exists added,
    history (snd (run_steps (workflow ur ia) tid k node st w)) tid = messages st ++ added
    /\ forall final,
         fst (run_steps (workflow ur ia) tid k node st w) = Ok final ->
         messages final = messages st ++ added /\ added <> [].
Proof.
  induction k as [|k IH]; intros node st w Hw.
  - exists []. rewrite app_nil_r. split; [exact Hw | discriminate].
  - destruct node.
    + rewrite run_steps_agent. cbv zeta.
      destruct (model_invoke _) as [[text calls]|msg].
      * destruct k as [|k'].
        { exists [AIMessage text calls]. cbn [fst snd].
          rewrite history_checkpointed. split; [reflexivity | discriminate]. }
        destruct calls as [|call calls].
        { exists [AIMessage text []]. cbn [fst snd].
          rewrite history_checkpointed. split; [reflexivity|].
          intros final [= <-]. split; [reflexivity | discriminate]. }
        match goal with |- context [run_steps _ _ _ tools ?st' ?w2] =>
          destruct (IH tools st' w2) as (added & Hh & Hok) end.
        { apply history_checkpointed. }
        exists (AIMessage text (call :: calls) :: added).
        cbn [apply_update messages messages_update u_messages] in *.
        unfold messages_reducer in *. rewrite <- app_assoc in Hh, Hok.
        split; [exact Hh|]. intros final Hf. destruct (Hok final Hf) as [-> _].
        split; [reflexivity | discriminate].
      * exists []. rewrite app_nil_r. cbn [fst snd].
        split; [by rewrite history_logged | discriminate].
    + rewrite run_steps_tools.
      destruct (last (messages st)) as [[| |c calls|]|];
        try (exists []; rewrite app_nil_r; cbn [fst snd];
             split; [by rewrite history_logged | discriminate]).
      destruct (tool_calls_run calls (logged w [Ran tools])) as (outs & searches & -> & _ & _).
      cbv zeta. destruct k as [|k'].
      { exists outs. cbn [fst snd]. rewrite history_checkpointed.
        split; [reflexivity | discriminate]. }
      match goal with |- context [run_steps _ _ _ agent ?st' ?w2] =>
        destruct (IH agent st' w2) as (added & Hh & Hok) end.
      { apply history_checkpointed. }
      exists (outs ++ added).
      cbn [apply_update messages messages_update u_messages] in *.
      unfold messages_reducer in *. rewrite <- app_assoc in Hh, Hok.
      split; [exact Hh|]. intros final Hf. destruct (Hok final Hf) as [-> Hne].
      split; [reflexivity|]. intros Hnil. apply app_eq_nil in Hnil as [_ ?]. done.
Qed.
(** An AGENT turn with budget left invokes the chat model on the state it
    is given; what follows in the run is logged after it. *)
Lemma agent_turn_rest ur ia tid k st w :
  exists rest,
    log (snd (run_steps (workflow ur ia) tid (S k) agent st w)) =
    log w ++ Ran agent
           :: ModelInvoked (formatMessages ur ia (toISOString_now (log w ++ [Ran agent])) st)
           :: rest
    /\ Forall (same_context ur ia) rest
    /\ vision_invocations rest = O.
Proof.
  rewrite run_steps_agent. cbv zeta.
  destruct (model_invoke _) as [[text calls]|msg].
  - destruct k as [|k'].
    { exists []. split; [reflexivity|]. split; [constructor | reflexivity]. }
    destruct calls as [|call calls].
    + exists []. split; [reflexivity|]. split; [constructor | reflexivity].
    + match goal with |- context [run_steps _ _ _ tools ?st' ?w2] =>
        destruct (run_steps_bounds ur ia tid (S k') tools st' w2)
          as (added & -> & _ & _ & Hv & Hc) end.
      exists added. cbn [log checkpointed logged]. rewrite <- app_assoc. by repeat split.
  - exists []. split; [reflexivity|]. split; [constructor | reflexivity].
Qed.


(** ** [callAgent], unfolded *)

Lemma analyse_run image w :
  analyse image w =
  match image with
  | Some ((String _ _) as path) =>
      match readFileSync_base64 path with
      | None => (Throw FsError, logged w [FileRead path])
      | Some base64_image =>
          match vision_invoke base64_image with
          | Resolved text =>
              (Ok (Some text), logged w [FileRead path; VisionInvoked base64_image])
          | Rejected msg =>
              (Throw (ModelInvocationError VisionModel msg),
               logged w [FileRead path; VisionInvoked base64_image])
          end
      end
  | _ => (Ok None, w)
  end.
Proof.
  destruct image as [[|c path]|]; try reflexivity.
  unfold analyse, analyse_image. rewrite !bind_run. unfold emit at 1.
  destruct (readFileSync_base64 _) as [b64|]; [|reflexivity].
  rewrite bind_run. unfold emit at 1.
  destruct (vision_invoke b64); unfold logged; cbn; rewrite <- app_assoc; reflexivity.
Qed.

Lemma callAgent_run query tid image w :
  callAgent query tid image w =
  match JSON_parse query with
  | None => (Throw SyntaxError, w)
  | Some ur =>
      match analyse image w with
      | (Throw e, w1) => (Throw e, w1)
      | (Ok ia, w1) =>
          let st0 := start_state w1 tid ur ia in
          match run_steps (workflow ur ia) tid recursionLimit agent st0
                  (checkpointed w1 tid st0) with
          | (Ok final, w') =>
              match last (messages final) with
              | Some m => (Ok (content m), w')
              | None => (Throw TypeError, w')
              end
          | (Throw e, w') => (Throw e, w')
          end
      end
  end.
Proof.
  unfold callAgent. destruct (JSON_parse query) as [ur|]; [|reflexivity].
  rewrite bind_run. destruct (analyse image w) as [[ia|e] w1]; [|reflexivity].
  rewrite bind_run. unfold app_invoke. rewrite bind_run. unfold get_checkpoint at 1.
  rewrite bind_run. unfold put_checkpoint at 1. cbn [entry workflow].
  fold (start_state w1 tid ur ia).
  destruct (run_steps _ _ _ _ _ _) as [[final|e] w']; [|reflexivity].
  destruct (last (messages final)); reflexivity.
Qed.

(** ** The recursion limit *)

Lemma run_steps_outcome ur ia tid :
  (forall prompt, exists reply, model_invoke prompt = Resolved reply) ->
  forall k node st w,
    (node = tools -> exists c calls, last (messages st) = Some (AIMessage c calls)) ->
    (exists final, fst (run_steps (workflow ur ia) tid k node st w) = Ok final)
    \/ fst (run_steps (workflow ur ia) tid k node st w) = Throw GraphRecursionError.
Proof.
  intros Hmodel. induction k as [|k IH]; intros node st w Hlast; [by right|].
  destruct node.
  - rewrite run_steps_agent. cbv zeta.
    destruct (Hmodel (formatMessages ur ia (toISOString_now (log w ++ [Ran agent])) st))
      as ([text calls] & ->).
    destruct k as [|k']; [by right|].
    destruct calls as [|call calls]; [left; by eexists|].
    apply IH. intros _. eexists _, _.
    cbn [apply_update messages messages_update u_messages]. apply last_snoc.
  - destruct (Hlast eq_refl) as (c & calls & Hl).
    rewrite run_steps_tools, Hl.
    destruct (tool_calls_run calls (logged w [Ran tools])) as (outs & searches & -> & _ & _).
    cbv zeta. destruct k as [|k']; [by right|].
    apply IH. discriminate.
Qed.

Lemma analyse_log image w :
  exists read,
    log (snd (analyse image w)) = log w ++ read
    /\ supersteps read = O /\ agent_invocations read = O
    /\ (vision_invocations read <= 1)%nat.
Proof.
  rewrite analyse_run. destruct image as [[|c path]|];
    try (exists []; rewrite app_nil_r; repeat split; count_events; fail).
  destruct (readFileSync_base64 _) as [b64|].
  - destruct (vision_invoke b64); eexists [_; _]; repeat split; count_events.
  - eexists [_]; repeat split; count_events.
Qed.

(** C1, as amended.  Every run of [callAgent] ends after at most 15
    super-steps, an execution of AGENT or of TOOLS each being one, so after
    at most 8 AGENT invocations; when the chat model never fails, it ends at
    END or with [GraphRecursionError]; and with a chat model that requests a
    tool call on every reply the error is raised after exactly 15
    super-steps, 8 of them AGENT invocations. *)
Theorem recursion_limit_counts_supersteps query tid image w :
  (exists added,
      log (snd (callAgent query tid image w)) = log w ++ added
      /\ (supersteps added <= 15)%nat
      /\ (agent_invocations added <= 8)%nat)
  /\ (forall ur ia w1,
        JSON_parse query = Some ur ->
        analyse image w = (Ok ia, w1) ->
        ((forall prompt, exists reply, model_invoke prompt = Resolved reply) ->
         (exists response, fst (callAgent query tid image w) = Ok response)
         \/ fst (callAgent query tid image w) = Throw GraphRecursionError)
        /\ ((forall prompt, exists text calls,
                model_invoke prompt = Resolved (text, calls) /\ calls <> []) ->
            exists added,
              fst (callAgent query tid image w) = Throw GraphRecursionError
              /\ log (snd (callAgent query tid image w)) = log w1 ++ added
              /\ supersteps added = 15%nat
              /\ agent_invocations added = 8%nat)).
Proof.
  split.
  - rewrite callAgent_run. destruct (JSON_parse query) as [ur|].
    2:{ exists []. rewrite app_nil_r. repeat split; count_events. }
    destruct (analyse_log image w) as (read & Hread & Hr1 & Hr2 & _).
    destruct (analyse image w) as [[ia|e] w1]; cbn [snd] in Hread.
    2:{ exists read. split; [exact Hread|]. split; count_events. }
    cbv zeta.
    destruct (run_steps_bounds ur ia tid recursionLimit agent (start_state w1 tid ur ia)
                (checkpointed w1 tid (start_state w1 tid ur ia)))
      as (added & Hlog & Hs & Ha & _).
    exists (read ++ added).
    assert (log (snd
      match run_steps (workflow ur ia) tid recursionLimit agent (start_state w1 tid ur ia)
              (checkpointed w1 tid (start_state w1 tid ur ia)) with
      | (Ok final, w') =>
          match last (messages final) with
          | Some m => (Ok (content m), w')
          | None => (Throw TypeError, w')
          end
      | (Throw e, w') => (@Throw string e, w')
      end) = log w ++ read ++ added) as ->.
    { destruct (run_steps _ _ _ _ _ _) as [[final|e] w']; cbn [snd] in *.
      - destruct (last (messages final)); cbn [snd];
          rewrite Hlog; cbn [log checkpointed]; by rewrite Hread, app_assoc.
      - rewrite Hlog; cbn [log checkpointed]; by rewrite Hread, app_assoc. }
    split; [reflexivity|]. change (agent_share recursionLimit agent) with 8%nat in Ha.
    change recursionLimit with 15%nat in Hs. split; count_events.
  - intros ur ia w1 Hq Hi. rewrite callAgent_run, Hq, Hi. cbv zeta. split.
    + intros Hmodel.
      destruct (run_steps_outcome ur ia tid Hmodel recursionLimit agent
                  (start_state w1 tid ur ia)
                  (checkpointed w1 tid (start_state w1 tid ur ia))) as [[final Hf]|Hf];
        [discriminate| |].
      * pose proof (run_steps_history ur ia tid recursionLimit agent
                      (start_state w1 tid ur ia)
                      (checkpointed w1 tid (start_state w1 tid ur ia))
                      (history_checkpointed _ _ _)) as (added & _ & Hok).
        destruct (Hok final Hf) as [Hm Hne].
        destruct (run_steps _ _ _ _ _ _) as [[final'|e] w']; cbn [fst] in Hf; [|discriminate].
        injection Hf as ->. left.
        destruct (last (messages final)) as [m|] eqn:Hl; [by eexists|].
        apply last_None in Hl. rewrite Hm in Hl. apply app_eq_nil in Hl as [_ ?]. done.
      * right. destruct (run_steps _ _ _ _ _ _) as [[final'|e] w']; cbn [fst] in Hf;
          [discriminate|]. by injection Hf as ->.
    + intros Hmodel.
      destruct (run_steps_always_tool ur ia tid Hmodel recursionLimit agent
                  (start_state w1 tid ur ia)
                  (checkpointed w1 tid (start_state w1 tid ur ia)))
        as (added & Hres & Hlog & Hs & Ha); [discriminate|].
      exists added.
      destruct (run_steps _ _ _ _ _ _) as [[final'|e] w']; cbn [fst snd] in *;
        [discriminate|]. injection Hres as ->.
      repeat split; [exact Hlog | exact Hs | exact Ha].
Qed.

(** ** The [product_lookup] tool *)

(** The schema leaves no [n] undefined: the handler's own default, 4, is
    never the one used. *)
Lemma prodLookup_schema_n args input :
  prodLookup_schema args = Some input ->
  exists k, n input = Some k
            /\ (args !! "n" = None \/ args !! "n" = Some JUndefined -> k = 10).
Proof.
  unfold prodLookup_schema, prop.
  destruct (z_string _) as [q|]; [|discriminate]. cbn.
  destruct (args !! "n") as [[]|]; cbn; try discriminate;
    intros [= <-]; eexists; (split; [reflexivity|]); intros [?|?]; congruence.
Qed.

(** The handler, had it been given no [n], would ask for 4 results. *)
Lemma prodLookup_func_default q w :
  log (snd (prodLookup_func {| query := q; n := None |} w)) = log w ++ [SearchInvoked q 4].
Proof.
  unfold prodLookup_func. rewrite bind_run. unfold emit at 1. cbn [n query default].
  destruct (similaritySearchWithScore q 4); reflexivity.
Qed.

Lemma prodLookupTool_omitted_n args q w :
  args !! "query" = Some (JString q) ->
  args !! "n" = None ->
  tool_invoke prodLookupTool args w =
  (match similaritySearchWithScore q 10 with
   | Resolved result => Ok (JSON_stringify result)
   | Rejected msg => Throw (ToolExecutionError msg)
   end, logged w [SearchInvoked q 10]).
Proof.
  intros Hq Hn. cbn [tool_invoke prodLookupTool tool].
  unfold prodLookup_schema, prop. rewrite Hq, Hn. cbn.
  unfold prodLookup_func. rewrite bind_run. unfold emit at 1. simpl.
  destruct (similaritySearchWithScore q 10); reflexivity.
Qed.

(** C2, on the code: a call of [product_lookup] whose arguments are
    [{ query: "acne serum" }] reaches the vector store with [n = 10], the
    default of the schema, not with 4. *)
Theorem product_lookup_without_n_searches_for_10 w :
  tool_invoke prodLookupTool (tc_args Scenario.lookup_call) w =
  (match similaritySearchWithScore "acne serum" 10 with
   | Resolved result => Ok (JSON_stringify result)
   | Rejected msg => Throw (ToolExecutionError msg)
   end, logged w [SearchInvoked "acne serum" 10]).
Proof. apply prodLookupTool_omitted_n; reflexivity. Qed.

(** ** Tool failures *)



(** Were the node built with [{ handleToolErrors: false }], the same
    failures would leave it as errors. *)
Lemma run_tool_call_unhandled call w :
  run_tool_call {| tn_tools := the_tools; handleToolErrors := false |} call w =
  if bool_decide (tc_name call = "product_lookup") then
    match prodLookup_schema (tc_args call) with
    | None => (Throw ToolInputParsingException, w)
    | Some input =>
        let k := default 4 (n input) in
        let w1 := logged w [SearchInvoked (query input) k] in
        match similaritySearchWithScore (query input) k with
        | Resolved result =>
            (Ok (ToolMessage (JSON_stringify result) "product_lookup" (tc_id call)), w1)
        | Rejected msg => (Throw (ToolExecutionError msg), w1)
        end
    end
  else (Throw (ToolNotFound (tc_name call)), w).
Proof.
  unfold run_tool_call, the_tools; simpl.
  rewrite (bool_decide_ext ("product_lookup" = tc_name call) (tc_name call = "product_lookup")) by done.
  destruct (bool_decide _); simpl; [|reflexivity].
  unfold prodLookup_func, logged. run_monad.
  destruct (prodLookup_schema _) as [input|]; simpl; [|reflexivity].
  destruct (similaritySearchWithScore _ _); reflexivity.
Qed.


(** ** A request, from its handler to its first AGENT turn *)

Lemma callAgent_world query tid image w ur ia w1 :
  JSON_parse query = Some ur ->
  analyse image w = (Ok ia, w1) ->
  snd (callAgent query tid image w) =
  snd (run_steps (workflow ur ia) tid recursionLimit agent (start_state w1 tid ur ia)
         (checkpointed w1 tid (start_state w1 tid ur ia))).
Proof.
  intros Hq Hi. rewrite callAgent_run, Hq, Hi. cbv zeta.
  destruct (run_steps _ _ _ _ _ _) as [[final|e] w']; [|reflexivity].
  destruct (last (messages final)); reflexivity.
Qed.



Lemma postChat_world now body image w :
  snd (postChat now body image w) =
  snd (callAgent (JSON_stringify (questionnaire body)) (Date_now_toString now)
         (or_null image) w).
Proof. unfold postChat. cbv zeta. by destruct (callAgent _ _ _ w) as [[?|?] ?]. Qed.

(** The first thing a run does is to invoke AGENT on the state it starts
    from. *)
Lemma first_turn ur ia tid st w :
  exists rest,
    log (snd (run_steps (workflow ur ia) tid recursionLimit agent st w)) =
    log w ++ Ran agent
           :: ModelInvoked (formatMessages ur ia (toISOString_now (log w ++ [Ran agent])) st)
           :: rest.
Proof. destruct (agent_turn_rest ur ia tid 14 st w) as (rest & Hlog & _). by exists rest. Qed.



(** ** The image analysis *)

(** The image step of [callAgent] on a non-empty path to a readable file. *)
Lemma callAgent_vision query tid path ur image w :
  JSON_parse query = Some ur ->
  path <> EmptyString ->
  readFileSync_base64 path = Some image ->
  vision_invocations (log (snd (callAgent query tid (Some path) w)))
  = S (vision_invocations (log w))
  /\ (forall msg,
        vision_invoke image = Rejected msg ->
        callAgent query tid (Some path) w
        = (Throw (ModelInvocationError VisionModel msg),
           logged w [FileRead path; VisionInvoked image])
        /\ agent_invocations (log (snd (callAgent query tid (Some path) w)))
           = agent_invocations (log w)
        /\ checkpoints (snd (callAgent query tid (Some path) w)) = checkpoints w).
Proof.
  intros Hq Hpath Hfile.
  assert (analyse (Some path) w =
          match vision_invoke image with
          | Resolved text => (Ok (Some text), logged w [FileRead path; VisionInvoked image])
          | Rejected msg =>
              (Throw (ModelInvocationError VisionModel msg),
               logged w [FileRead path; VisionInvoked image])
          end) as Hi.
  { rewrite analyse_run. destruct path as [|c path]; [done|]. by rewrite Hfile. }
  split.
  - destruct (vision_invoke image) as [text|msg] eqn:Hv.
    + rewrite (callAgent_world query tid (Some path) w ur (Some text) _ Hq Hi).
      match goal with |- context [run_steps ?g _ _ _ ?st ?w2] =>
        destruct (run_steps_bounds ur (Some text) tid recursionLimit agent st w2)
          as (added & -> & _ & _ & Hvis & _) end.
      cbn [log checkpointed logged]. count_events.
    + rewrite callAgent_run, Hq, Hi. cbn [snd log logged]. count_events.
  - intros msg Hv. rewrite Hv in Hi. rewrite callAgent_run, Hq, Hi.
    split; [reflexivity|]. cbn [snd log logged checkpoints]. split; [count_events | reflexivity].
Qed.

(** C5.  A [POST /chat] request that carries an image (a non-empty path to
    a readable file) invokes the vision model exactly once, whatever happens
    next; and when that invocation is rejected, [callAgent] throws the
    model's error with no AGENT turn run and no checkpoint written, and the
    caller gets the status 500. *)
Theorem vision_model_is_invoked_once now body path ur image w :
  JSON_parse (JSON_stringify (questionnaire body)) = Some ur ->
  path <> EmptyString ->
  readFileSync_base64 path = Some image ->
  vision_invocations (log (snd (postChat now body (Some path) w)))
  = S (vision_invocations (log w))
  /\ (forall msg,
        vision_invoke image = Rejected msg ->
        callAgent (JSON_stringify (questionnaire body)) (Date_now_toString now)
          (Some path) w
        = (Throw (ModelInvocationError VisionModel msg),
           logged w [FileRead path; VisionInvoked image])
        /\ postChat now body (Some path) w
           = (Status500 "Internal server error",
              logged w [FileRead path; VisionInvoked image])
        /\ agent_invocations (log (snd (postChat now body (Some path) w)))
           = agent_invocations (log w)
        /\ checkpoints (snd (postChat now body (Some path) w)) = checkpoints w).
Proof.
  intros Hq Hpath Hfile.
  assert (or_null (Some path) = Some path) as Hnull by (by destruct path).
  destruct (callAgent_vision _ (Date_now_toString now) path ur image w Hq Hpath Hfile)
    as [Honce Hfail].
  rewrite postChat_world, Hnull. split; [exact Honce|].
  intros msg Hv. destruct (Hfail msg Hv) as (Hthrow & Hagent & Hstore).
  split; [exact Hthrow|]. split; [|by split].
  unfold postChat. cbv zeta. by rewrite Hnull, Hthrow.
Qed.

(** ** The final answer *)

Lemma shouldContinue_reply st text calls :
  shouldContinue (apply_update st (messages_update [AIMessage text calls])) =
  match calls with
  | [] => Ok END
  | _ :: _ => Ok (Goto tools)
  end.
Proof.
  unfold shouldContinue. cbn [apply_update messages messages_update u_messages].
  unfold messages_reducer. by rewrite last_snoc.
Qed.

(** C6, as amended.  A reply without tool calls is routed to END; on any
    AGENT turn that does not use up the recursion limit the run then
    returns at once, nothing else run, with that reply as the last message
    of the final state; and whenever [callAgent] returns a response, the
    response is, verbatim, the text of the reply to the last AGENT
    invocation, a reply without tool calls. *)
Theorem reply_without_tool_calls_is_the_response query tid image w :
  (forall st text,
      shouldContinue (apply_update st (messages_update [AIMessage text []])) = Ok END)
  /\ (forall ur ia k st w0 text,
        model_invoke (formatMessages ur ia (toISOString_now (log w0 ++ [Ran agent])) st)
        = Resolved (text, []) ->
        let final := apply_update st (messages_update [AIMessage text []]) in
        run_steps (workflow ur ia) tid (S (S k)) agent st w0
        = (Ok final,
           checkpointed
             (logged w0
                [Ran agent;
                 ModelInvoked
                   (formatMessages ur ia (toISOString_now (log w0 ++ [Ran agent])) st)])
             tid final)
        /\ content <$> last (messages final) = Some text)
  /\ (forall response,
        fst (callAgent query tid image w) = Ok response ->
        exists prompt before,
          log (snd (callAgent query tid image w)) = log w ++ before ++ [ModelInvoked prompt]
          /\ model_invoke prompt = Resolved (response, [])).
Proof.
  split; [|split].
  - intros st text. apply shouldContinue_reply.
  - intros ur ia k st w0 text Hr final. rewrite run_steps_agent. cbv zeta. rewrite Hr.
    split; [reflexivity|]. subst final.
    cbn [apply_update messages messages_update u_messages].
    unfold messages_reducer. by rewrite last_snoc.
  - intros response. rewrite callAgent_run.
    destruct (JSON_parse query) as [ur|]; [|discriminate].
    destruct (analyse_log image w) as (read & Hread & _).
    destruct (analyse image w) as [[ia|e] w1]; [|discriminate]. cbn [snd] in Hread.
    cbv zeta.
    destruct (run_steps _ _ _ _ _ _) as [[final|e] w'] eqn:Hrun; [|discriminate].
    apply run_steps_Ok in Hrun as (text & prompt & before & Hl & Hlog & Hreply).
    rewrite Hl. cbn [fst snd content]. intros [= <-].
    exists prompt, (read ++ before). split; [|exact Hreply].
    rewrite Hlog. cbn [log checkpointed]. by rewrite Hread, <- !app_assoc.
Qed.

(** ** The history *)

Lemma history_checkpointed_ne w tid tid' st :
  tid' <> tid -> history (checkpointed w tid st) tid' = history w tid'.
Proof.
  intros Hne. unfold history, checkpointed; cbn [checkpoints].
  by rewrite lookup_insert_ne.
Qed.

Lemma run_steps_frame ur ia tid tid' k : forall node st w,
  tid' <> tid ->
  history (snd (run_steps (workflow ur ia) tid k node st w)) tid' = history w tid'.
Proof.
  induction k as [|k IH]; intros node st w Hne; [reflexivity|].
  destruct node.
  - rewrite run_steps_agent. cbv zeta.
    destruct (model_invoke _) as [[text calls]|msg]; [|reflexivity].
    destruct k as [|k']; [cbn [snd]; by rewrite history_checkpointed_ne|].
    destruct calls as [|call calls]; [cbn [snd]; by rewrite history_checkpointed_ne|].
    rewrite IH by done. by rewrite history_checkpointed_ne.
  - rewrite run_steps_tools.
    destruct (last (messages st)) as [[| |c calls|]|]; try reflexivity.
    destruct (tool_calls_run calls (logged w [Ran tools])) as (outs & searches & -> & _ & _).
    cbv zeta. destruct k as [|k']; [cbn [snd]; by rewrite history_checkpointed_ne|].
    rewrite IH by done. by rewrite history_checkpointed_ne.
Qed.

(** What a node hands to the reducer. *)
Lemma node_update ur ia node st w u w' :
  nodes (workflow ur ia) node st w = (Ok u, w') ->
  match node with
  | agent => exists text calls, u_messages u = [AIMessage text calls]
  | tools =>
      exists c calls,
        last (messages st) = Some (AIMessage c calls)
        /\ length (u_messages u) = length calls
  end.
Proof.
  destruct node; cbn [nodes workflow].
  - rewrite callModel_run. cbv zeta.
    destruct (model_invoke _) as [[text calls]|msg]; [|discriminate].
    intros [= <- _]. by eexists _, _.
  - unfold ToolNode_run.
    destruct (last (messages st)) as [[| |c calls|]|]; try discriminate.
    rewrite bind_run.
    destruct (tool_calls_run calls w) as (outs & searches & -> & Hlen & _).
    intros [= <- _]. by eexists _, _.
Qed.

(** Over a whole request the history checkpointed for the thread grows at
    its end. *)
Lemma callAgent_history query tid image w :
  exists added,
    history (snd (callAgent query tid image w)) tid = history w tid ++ added
    /\ forall response,
         fst (callAgent query tid image w) = Ok response ->
         exists replies,
           added = HumanMessage request_text :: replies /\ replies <> [].
Proof.
  rewrite callAgent_run. destruct (JSON_parse query) as [ur|].
  2:{ exists []. rewrite app_nil_r. split; [reflexivity | discriminate]. }
  pose proof (analyse_run image w) as Hi.
  assert (history (snd (analyse image w)) tid = history w tid) as Hsame.
  { rewrite Hi. destruct image as [[|c path]|]; try reflexivity.
    destruct (readFileSync_base64 _); [|reflexivity].
    destruct (vision_invoke _); reflexivity. }
  destruct (analyse image w) as [[ia|e] w1]; cbn [snd] in Hsame.
  2:{ exists []. rewrite app_nil_r. split; [exact Hsame | discriminate]. }
  cbv zeta.
  destruct (run_steps_history ur ia tid recursionLimit agent (start_state w1 tid ur ia)
              (checkpointed w1 tid (start_state w1 tid ur ia))
              (history_checkpointed _ _ _)) as (added & Hh & Hok).
  exists (HumanMessage request_text :: added).
  assert (messages (start_state w1 tid ur ia) = history w tid ++ [HumanMessage request_text])
    as Hstart by (by rewrite <- Hsame).
  rewrite Hstart, <- app_assoc in Hh, Hok.
  destruct (run_steps _ _ _ _ _ _) as [[final|e] w']; cbn [fst snd] in *.
  - destruct (Hok final eq_refl) as [_ Hne].
    destruct (last (messages final)); cbn [fst snd];
      (split; [exact Hh|]); intros response _; by exists added.
  - split; [exact Hh | discriminate].
Qed.

(** A request leaves the other threads as they were. *)
Lemma callAgent_frame query tid image w other :
  other <> tid ->
  history (snd (callAgent query tid image w)) other = history w other.
Proof.
  intros Hne. rewrite callAgent_run. destruct (JSON_parse query) as [ur|]; [|reflexivity].
  pose proof (analyse_run image w) as Hi.
  assert (history (snd (analyse image w)) other = history w other) as Hsame.
  { rewrite Hi. destruct image as [[|c path]|]; try reflexivity.
    destruct (readFileSync_base64 _); [|reflexivity].
    destruct (vision_invoke _); reflexivity. }
  destruct (analyse image w) as [[ia|e] w1]; cbn [snd] in Hsame; [|exact Hsame].
  cbv zeta.
  pose proof (run_steps_frame ur ia tid other recursionLimit agent (start_state w1 tid ur ia)
                (checkpointed w1 tid (start_state w1 tid ur ia)) Hne) as Hf.
  rewrite history_checkpointed_ne in Hf by done.
  destruct (run_steps _ _ _ _ _ _) as [[final|e] w']; cbn [snd] in *.
  - destruct (last (messages final)); cbn [snd]; congruence.
  - congruence.
Qed.

(** C7.  The reducer of [messages] concatenates; a node hands it one
    reply (AGENT) or one result per tool call (TOOLS), so the state after a
    super-step is the state before it with these appended; and over a whole
    request the history checkpointed for the thread is the history it had
    before with messages appended, at least the request message and one
    reply when a response is returned, while no other thread changes. *)
Theorem history_is_append_only query tid image w :
  (forall st u, messages (apply_update st u) = messages st ++ u_messages u)
  /\ (forall ur ia node st w0 u w1,
        nodes (workflow ur ia) node st w0 = (Ok u, w1) ->
        (node = agent \/ shouldContinue st = Ok (Goto tools)) ->
        exists new,
          new <> [] /\ messages (apply_update st u) = messages st ++ new)
  /\ (exists added,
        history (snd (callAgent query tid image w)) tid = history w tid ++ added
        /\ forall response,
             fst (callAgent query tid image w) = Ok response ->
             exists replies,
               added = HumanMessage request_text :: replies /\ replies <> [])
  /\ (forall other,
        other <> tid ->
        history (snd (callAgent query tid image w)) other = history w other).
Proof.
  split; [reflexivity|]. split; [|split].
  - intros ur ia node st w0 u w1 Hnode Hroute. exists (u_messages u).
    split; [|reflexivity]. apply node_update in Hnode. destruct node.
    + destruct Hnode as (text & calls & ->). discriminate.
    + destruct Hnode as (c & calls & Hl & Hlen). destruct Hroute as [|Hroute]; [done|].
      unfold shouldContinue in Hroute. rewrite Hl in Hroute. cbn [tool_calls] in Hroute.
      destruct calls; [discriminate|]. by destruct (u_messages u).
  - apply callAgent_history.
  - intros other. apply callAgent_frame.
Qed.

(** ** The context of the AGENT turns *)

Lemma append_assoc (a b c : string) : (a +:+ b) +:+ c = a +:+ b +:+ c.
Proof.
  induction a as [|x a IH]; [done|].
  change (String x ((a +:+ b) +:+ c) = String x (a +:+ b +:+ c)). by rewrite IH.
Qed.

Lemma append_nil_r (a : string) : a +:+ EmptyString = a.
Proof.
  induction a as [|x a IH]; [done|].
  change (String x (a +:+ EmptyString) = String x a). by rewrite IH.
Qed.

Lemma embeds_empty whole : embeds EmptyString whole.
Proof. exists whole, EmptyString. by rewrite !append_nil_r. Qed.

Lemma embeds_first (a x b : string) : embeds x (a +:+ x +:+ b).
Proof. by exists a, b. Qed.

Lemma embeds_second (a x b y c : string) : embeds y (a +:+ x +:+ b +:+ y +:+ c).
Proof. exists (a +:+ x +:+ b), c. by rewrite !append_assoc. Qed.

Lemma system_template_embeds user_responses image_analysis tool_names time :
  embeds user_responses (system_template user_responses image_analysis tool_names time)
  /\ embeds image_analysis (system_template user_responses image_analysis tool_names time).
Proof.
  unfold system_template. split; [apply embeds_first | apply embeds_second].
Qed.

(** The first AGENT turn, and what the rest of the run can log. *)
Lemma first_turn_rest ur ia tid st w :
  exists rest,
    log (snd (run_steps (workflow ur ia) tid recursionLimit agent st w)) =
    log w ++ Ran agent
           :: ModelInvoked (formatMessages ur ia (toISOString_now (log w ++ [Ran agent])) st)
           :: rest
    /\ Forall (same_context ur ia) rest
    /\ vision_invocations rest = O.
Proof. apply agent_turn_rest. Qed.

(** C8, as amended.  In a request whose questionnaire parses to [ur] and
    whose image step yields [ia], the prompt of the first AGENT turn is a
    system message followed by the state's messages; the system message
    embeds the serialized questionnaire, the analysis text when an image was
    supplied and analysed, and the literal placeholder when none was; every
    AGENT turn of the run is formatted from the same two values; and the run
    does not invoke the vision model again.  A request without an image, as
    every continuation request is, has no analysis and invokes no vision
    model: its context holds the placeholder. *)
Theorem seed_context_embeds_profile_and_analysis query tid image ur ia w w1 :
  JSON_parse query = Some ur ->
  analyse image w = (Ok ia, w1) ->
  (or_null image = None -> ia = None /\ w1 = w)
  /\ (forall path base64_image,
        image = Some path -> path <> EmptyString ->
        readFileSync_base64 path = Some base64_image ->
        exists text, vision_invoke base64_image = Resolved text /\ ia = Some text)
  /\ exists system time rest,
       log (snd (callAgent query tid image w)) =
       log w1 ++ Ran agent
              :: ModelInvoked (SystemMessage system :: messages (start_state w1 tid ur ia))
              :: rest
       /\ system = system_template (JSON_stringify_indent2 ur)
                     (or_else ia no_image_analysis) "product_lookup" time
       /\ embeds (JSON_stringify_indent2 ur) system
       /\ (forall text, ia = Some text -> embeds text system)
       /\ (ia = None -> embeds no_image_analysis system)
       /\ Forall (same_context ur ia) rest
       /\ vision_invocations rest = O.
Proof.
  intros Hq Hi. split; [|split].
  - rewrite analyse_run in Hi. destruct image as [[|c path]|]; cbn [or_null]; try discriminate;
      intros _; by injection Hi as <- <-.
  - intros path b64 -> Hpath Hfile. rewrite analyse_run in Hi.
    destruct path as [|c path]; [done|]. rewrite Hfile in Hi.
    destruct (vision_invoke b64) as [text|msg]; [|discriminate].
    injection Hi as <- _. by exists text.
  - rewrite (callAgent_world query tid image w ur ia w1 Hq Hi).
    destruct (first_turn_rest ur ia tid (start_state w1 tid ur ia)
                (checkpointed w1 tid (start_state w1 tid ur ia)))
      as (rest & Hlog & Hctx & Hvis).
    cbn [log checkpointed] in Hlog.
    set (time := toISOString_now (log w1 ++ [Ran agent])) in *.
    set (system := system_template (JSON_stringify_indent2 ur)
                     (or_else ia no_image_analysis) "product_lookup" time).
    exists system, time, rest. split; [exact Hlog|]. split; [reflexivity|].
    destruct (system_template_embeds (JSON_stringify_indent2 ur)
                (or_else ia no_image_analysis) "product_lookup" time) as [Hur Hslot].
    split; [exact Hur|]. split; [|split; [|by split]].
    + intros text ->. destruct text as [|c text]; [apply embeds_empty | exact Hslot].
    + intros ->. exact Hslot.
Qed.

(** ** Thread identifiers *)


(** The identifier is the decimal numeral of the clock reading: read
    back, it gives the reading, so two readings give one identifier only
    when they are the same millisecond. *)
Lemma Date_now_toString_decimal now :
  N.of_uint <$> NilEmpty.uint_of_string (Date_now_toString now) = Some now.
Proof.
  unfold Date_now_toString. rewrite NilEmpty.usu. cbn. by rewrite Unsigned.of_to.
Qed.

Lemma Date_now_toString_inj now now' :
  Date_now_toString now = Date_now_toString now' -> now = now'.
Proof.
  intros Heq. pose proof (Date_now_toString_decimal now) as Hd.
  rewrite Heq, Date_now_toString_decimal in Hd. by injection Hd.
Qed.


(** ** Continuation messages *)

(** C10.  A continuation message that [JSON.parse] rejects makes
    [callAgent] throw before anything else happens: nothing is logged, no
    checkpoint is written, and the caller gets the status 500.  So a request
    that logged or checkpointed anything carried a message that parses. *)
Theorem unparsable_message_fails_at_once tid message w :
  (JSON_parse message = None ->
   callAgent message tid None w = (Throw SyntaxError, w)
   /\ postChatThread tid message w = (Status500 "Internal server error", w))
  /\ (snd (postChatThread tid message w) <> w ->
      exists userResponses, JSON_parse message = Some userResponses).
Proof.
  assert (JSON_parse message = None ->
          callAgent message tid None w = (Throw SyntaxError, w)) as Hc.
  { intros Hq. unfold callAgent. by rewrite Hq. }
  split.
  - intros Hq. split; [by apply Hc|]. unfold postChatThread. by rewrite Hc.
  - intros Hw. destruct (JSON_parse message) as [ur|] eqn:Hq; [by exists ur|].
    exfalso. apply Hw. unfold postChatThread. by rewrite Hc.
Qed.

(** ** Tool results and resumed threads *)

(** The tool node answers the calls one by one: the results carry the ids
    and the names of the calls, in the order of the calls. *)
Theorem tool_results_answer_the_calls_in_order calls w :
  exists outs searches,
    mapM (run_tool_call toolNode) calls w = (Ok outs, logged w searches)
    /\ result_of <$> outs = (fun call => Some (tc_name call, tc_id call)) <$> calls.
Proof.
  revert w. induction calls as [|call calls IH]; intros w.
  - exists [], []. by rewrite logged_nil.
  - cbn [mapM]. rewrite bind_run, run_tool_call_run.
    assert (exists m searches,
      (if bool_decide (tc_name call = "product_lookup")
       then match prodLookup_schema (tc_args call) with
            | None => (Ok (tool_error_message ToolInputParsingException call), w)
            | Some input =>
                let k := default 4 (n input) in
                let w1 := logged w [SearchInvoked (query input) k] in
                match similaritySearchWithScore (query input) k with
                | Resolved result =>
                    (Ok (ToolMessage (JSON_stringify result) "product_lookup" (tc_id call)), w1)
                | Rejected msg => (Ok (tool_error_message (ToolExecutionError msg) call), w1)
                end
            end
       else (Ok (tool_error_message (ToolNotFound (tc_name call)) call), w))
      = (Ok m, logged w searches)
      /\ result_of m = Some (tc_name call, tc_id call)) as (m & s1 & -> & Hm).
    { destruct (bool_decide_reflect (tc_name call = "product_lookup")) as [Hn|Hn].
      - destruct (prodLookup_schema _) as [input|].
        + cbv zeta. destruct (similaritySearchWithScore _ _);
            eexists _, [_]; (split; [reflexivity|]); cbn; by rewrite ?Hn.
        + eexists _, []. rewrite logged_nil. by split.
      - eexists _, []. rewrite logged_nil. by split. }
    destruct (IH (logged w s1)) as (outs & s2 & Heq & Hids).
    rewrite bind_run, Heq. exists (m :: outs), (s1 ++ s2).
    rewrite logged_logged. split; [reflexivity|]. cbn. by rewrite Hm, Hids.
Qed.

(** A request takes the thread up where its checkpoint left it: the state
    of its first AGENT turn is the stored history followed by the request
    message, and the chat model is invoked on exactly that. *)
Theorem request_resumes_from_the_checkpoint query tid ur w :
  JSON_parse query = Some ur ->
  messages (start_state w tid ur None) = history w tid ++ [HumanMessage request_text]
  /\ exists system rest,
       log (snd (callAgent query tid None w)) =
       log w ++ Ran agent
              :: ModelInvoked
                   (SystemMessage system :: history w tid ++ [HumanMessage request_text])
              :: rest.
Proof.
  intros Hq. split; [reflexivity|].
  rewrite (callAgent_world query tid None w ur None w Hq eq_refl).
  destruct (first_turn ur None tid (start_state w tid ur None)
              (checkpointed w tid (start_state w tid ur None))) as (rest & ->).
  unfold formatMessages. cbn [log checkpointed]. by eexists _, rest.
Qed.

End Proofs.

(** * Seeding the product collection: proofs *)

Section SplitJoin.
Import SeedDatabase.

Lemma append_cons c (s t : string) : String c s +:+ t = String c (s +:+ t).
Proof. reflexivity. Qed.

Lemma prefix_append (sep s : string) :
  String.prefix sep s = true -> exists rest, s = sep +:+ rest.
Proof.
  revert s. induction sep as [|a sep IH]; intros s Hp.
  - by exists s.
  - destruct s as [|b s]; simpl in Hp; [done|].
    destruct (ascii_dec a b) as [->|]; [|done].
    destruct (IH s Hp) as [rest ->]. by exists rest.
Qed.

Lemma split_from_skip sep (pre rest : string) :
  split_from sep (String.length pre) (pre +:+ rest) = split_from sep O rest.
Proof.
  induction pre as [|c pre IH]; [done|].
  rewrite append_cons. simpl. exact IH.
Qed.

Lemma join_cons_char sep c piece pieces :
  join sep (String c piece :: pieces) = String c (join sep (piece :: pieces)).
Proof. destruct pieces; reflexivity. Qed.

Lemma length_append (s t : string) :
  String.length (s +:+ t) = (String.length s + String.length t)%nat.
Proof. induction s as [|c s IH]; [done|]. rewrite append_cons. simpl. by rewrite IH. Qed.

Lemma split_from_join sep :
  sep <> EmptyString ->
  forall k s, (String.length s <= k)%nat ->
    join sep (let '(piece, pieces) := split_from sep O s in piece :: pieces) = s.
Proof.
  intros Hsep. induction k as [|k IH]; intros s Hk.
  - destruct s; [done | simpl in Hk; lia].
  - destruct s as [|c s]; [done|].
    cbn [split_from].
    destruct (String.prefix sep (String c s)) eqn:Hp.
    + apply prefix_append in Hp as [rest Hrest].
      destruct sep as [|a sep]; [done|].
      rewrite append_cons in Hrest. injection Hrest as -> ->.
      cbn [String.length]. rewrite Nat.sub_succ, Nat.sub_0_r.
      rewrite split_from_skip.
      assert (Hlen : (String.length rest <= k)%nat).
      { simpl in Hk. rewrite length_append in Hk. lia. }
      specialize (IH rest Hlen).
      destruct (split_from (String a sep) O rest) as [piece pieces].
      change (join (String a sep) (EmptyString :: piece :: pieces))
        with (EmptyString +:+ String a sep +:+ join (String a sep) (piece :: pieces)).
      rewrite IH. reflexivity.
    + assert (Hlen : (String.length s <= k)%nat) by (simpl in Hk; lia).
      specialize (IH s Hlen).
      destruct (split_from sep O s) as [piece pieces].
      rewrite join_cons_char. by rewrite IH.
Qed.

(** Splitting a string and joining the pieces with the separator gives the
    string back. *)
Lemma join_split (s sep : string) : join sep (split s sep) = s.
Proof.
  unfold split. destruct sep as [|a sep].
  - induction s as [|c s IH]; [done|].
    cbn [list_ascii_of_string fmap list_fmap].
    rewrite join_cons_char.
    change (list_fmap _ _ ?f ?l) with (f <$> l).
    destruct s as [|c' s]; [done|].
    cbn [list_ascii_of_string fmap list_fmap] in *.
    change (join EmptyString (EmptyString :: ?l)) with (EmptyString +:+ EmptyString +:+ join EmptyString l).
    by rewrite IH.
  - by apply (split_from_join (String a sep)) with (k := String.length s).
Qed.

End SplitJoin.

Section ExcelRows.
Import SeedDatabase SeedDatabase.Excel.

Lemma split_method_cell (v : JsValue) sep :
  split_method (or_value v (JString EmptyString)) sep =
  if splittable v
  then Done (split (ToString (or_value v (JString EmptyString))) sep)
  else Threw (NotAFunction "split").
Proof.
  unfold or_value, splittable.
  destruct v as [| |[|]|[|p|p]|[|c s]|items|fields]; reflexivity.
Qed.

Lemma readRow_ok row index :
  row_ok row = true ->
  exists product,
    readRow row index = Done product
    /\ benefits product = split (cell_text row "Benefits" EmptyString) ", "
    /\ ingredients product = split (cell_text row "Ingredients list" EmptyString) ", "
    /\ product_id product =
       ToString (or_value (prop row "GTIN")
                   (JString ("product_" +:+ Number_toString (Z.of_nat index))))
    /\ ToString (product_name product) = cell_text row "Commercial name" "Unknown Product"
    /\ ToString (category product) = cell_text row "Marketing range" "General"
    /\ ToString (description product)
       = cell_text row "Product description" "No description provided"
    /\ ToString (product_use product) = cell_text row "Frequency of use" EmptyString
    /\ ToString (product_application product) = cell_text row "Application" EmptyString.
Proof.
  unfold row_ok. intros [Hb Hi]%andb_prop.
  unfold readRow. rewrite !split_method_cell, Hb, Hi.
  eexists. split; [reflexivity|]. repeat split.
Qed.

Lemma readRow_not_ok row index :
  row_ok row = false -> readRow row index = Threw (NotAFunction "split").
Proof.
  unfold row_ok, readRow. rewrite !split_method_cell.
  destruct (splittable (prop row "Benefits")); [|done].
  simpl. by intros ->.
Qed.

(** A row whose [Benefits] and [Ingredients list] cells are strings, or are
    empty, gives a record whose summary shows the two cells as they are
    written in the sheet: the pieces [split(", ")] cut are joined again with
    [", "].  The other three sentences show the cells of their columns, or
    the defaults. *)
Theorem summary_shows_the_cells_of_the_row row index :
  row_ok row = true ->
  exists product,
    readRow row index = Done product
    /\ join ", " (benefits product) = cell_text row "Benefits" EmptyString
    /\ join ", " (ingredients product) = cell_text row "Ingredients list" EmptyString
    /\ createProductSummary product =
       cell_text row "Commercial name" "Unknown Product"
       +:+ " (" +:+ cell_text row "Marketing range" "General"
       +:+ "): " +:+ cell_text row "Product description" "No description provided"
       +:+ ". Ingredients: " +:+ cell_text row "Ingredients list" EmptyString
       +:+ ". Benefits: " +:+ cell_text row "Benefits" EmptyString
       +:+ ". Use: " +:+ cell_text row "Frequency of use" EmptyString
       +:+ ". Application: " +:+ cell_text row "Application" EmptyString.
Proof.
  intros Hok.
  destruct (readRow_ok row index Hok)
    as (product & Hrow & Hb & Hi & _ & Hname & Hcat & Hdesc & Huse & Happ).
  exists product. split; [exact Hrow|].
  assert (Hjb : join ", " (benefits product) = cell_text row "Benefits" EmptyString)
    by (rewrite Hb; apply join_split).
  assert (Hji : join ", " (ingredients product)
                = cell_text row "Ingredients list" EmptyString)
    by (rewrite Hi; apply join_split).
  split; [exact Hjb|]. split; [exact Hji|].
  unfold createProductSummary. cbv zeta.
  rewrite Hjb, Hji, Hname, Hcat, Hdesc, Huse, Happ.
  rewrite !append_assoc. reflexivity.
Qed.

End ExcelRows.

Section ExcelFile.
Import SeedDatabase SeedDatabase.Excel.

Lemma map_rows_ok rows : forall index,
  forallb row_ok rows = true ->
  exists products,
    map_rows rows index = Done products
    /\ length products = length rows
    /\ forall i row,
         rows !! i = Some row ->
         exists product,
           products !! i = Some product /\ readRow row (index + i) = Done product.
Proof.
  induction rows as [|row rows IH]; intros index Hall.
  - exists []. repeat split. intros i row Hi. by rewrite lookup_nil in Hi.
  - cbn [forallb] in Hall. apply andb_prop in Hall as [Hrow Hrows].
    destruct (readRow_ok row index Hrow) as (product & Hread & _).
    destruct (IH (S index) Hrows) as (products & Hmap & Hlen & Hnth).
    exists (product :: products).
    cbn [map_rows]. rewrite Hread. cbn. rewrite Hmap. cbn.
    split; [reflexivity|]. split; [by rewrite Hlen|].
    intros [|i] row' Hi; cbn in Hi.
    + injection Hi as <-. exists product. by rewrite Nat.add_0_r.
    + destruct (Hnth i row' Hi) as (product' & Hp & Hr).
      exists product'. split; [exact Hp|].
      by replace (index + S i)%nat with (S index + i)%nat by lia.
Qed.

Lemma map_rows_not_ok rows : forall index,
  forallb row_ok rows = false ->
  map_rows rows index = Threw (NotAFunction "split").
Proof.
  induction rows as [|row rows IH]; intros index Hall; [done|].
  cbn [forallb] in Hall. cbn [map_rows].
  destruct (row_ok row) eqn:Hrow.
  - destruct (readRow_ok row index Hrow) as (product & -> & _). cbn.
    by rewrite (IH (S index) Hall).
  - by rewrite (readRow_not_ok row index Hrow).
Qed.

(** The records of a sheet, or the [TypeError] of its first row that cannot
    be split. *)
Lemma readExcelFile_rows_ok sheet_to_json filePath rows :
  sheet_to_json filePath = Resolved rows ->
  if forallb row_ok rows
  then exists products,
         readExcelFile sheet_to_json filePath = Done products
         /\ length products = length rows
         /\ forall i row,
              rows !! i = Some row ->
              exists product, products !! i = Some product /\ readRow row i = Done product
  else readExcelFile sheet_to_json filePath = Threw (NotAFunction "split").
Proof.
  intros Hrows. unfold readExcelFile. rewrite Hrows.
  destruct (forallb row_ok rows) eqn:Hall.
  - destruct (map_rows_ok rows O Hall) as (products & Hmap & Hlen & Hnth).
    exists products. repeat split; auto.
  - by apply map_rows_not_ok.
Qed.

(** [readExcelFile] gives one record per row of the sheet, in the order of
    the rows, each built from its row and the row's index; unless a row
    holds something other than text in its [Benefits] or [Ingredients list]
    cell (a number other than 0, say), in which case the whole read throws a
    [TypeError] and gives no record at all. *)
Theorem readExcelFile_gives_one_record_per_row sheet_to_json filePath rows :
  sheet_to_json filePath = Resolved rows ->
  if forallb row_ok rows
  then exists products,
         readExcelFile sheet_to_json filePath = Done products
         /\ length products = length rows
         /\ forall i row,
              rows !! i = Some row ->
              exists product, products !! i = Some product /\ readRow row i = Done product
  else readExcelFile sheet_to_json filePath = Threw (NotAFunction "split").
Proof. apply readExcelFile_rows_ok. Qed.

Lemma append_inj_l (s a b : string) : s +:+ a = s +:+ b -> a = b.
Proof.
  induction s as [|c s IH]; [done|].
  rewrite !append_cons. intros Heq. injection Heq as Heq. auto.
Qed.

Lemma Number_toString_inj (m n : Z) :
  Number_toString m = Number_toString n -> m = n.
Proof.
  unfold Number_toString, Z_JsNumber. intros Heq.
  assert (Hint : Some (Z.to_int m) = Some (Z.to_int n)).
  { rewrite <- !NilEmpty.isi. by rewrite Heq. }
  injection Hint as Hint. by apply DecimalZ.to_int_inj.
Qed.

(** The identifier of a record is the text of the row's [GTIN] cell; a row
    without one (or with an empty or zero one) is given ["product_"]
    followed by its index in the sheet, so that two such rows never share an
    identifier. *)
Theorem rows_without_GTIN_get_distinct_ids sheet_to_json filePath rows products :
  sheet_to_json filePath = Resolved rows ->
  readExcelFile sheet_to_json filePath = Done products ->
  (forall i row product,
      rows !! i = Some row -> products !! i = Some product ->
      product_id product =
      if truthy (prop row "GTIN")
      then ToString (prop row "GTIN")
      else "product_" +:+ Number_toString (Z.of_nat i))
  /\ (forall i j row_i row_j product_i product_j,
        rows !! i = Some row_i -> rows !! j = Some row_j ->
        products !! i = Some product_i -> products !! j = Some product_j ->
        truthy (prop row_i "GTIN") = false -> truthy (prop row_j "GTIN") = false ->
        product_id product_i = product_id product_j -> i = j).
Proof.
  intros Hrows Hread.
  pose proof (readExcelFile_rows_ok sheet_to_json filePath rows Hrows) as Hspec.
  assert (Hid : forall i row product,
             rows !! i = Some row -> products !! i = Some product ->
             product_id product =
             if truthy (prop row "GTIN")
             then ToString (prop row "GTIN")
             else "product_" +:+ Number_toString (Z.of_nat i)).
  { intros i row product Hi Hp.
    destruct (forallb row_ok rows) eqn:Hall; [|congruence].
    destruct Hspec as (products' & Hread' & _ & Hnth).
    assert (products' = products) as -> by congruence.
    destruct (Hnth i row Hi) as (product' & Hp' & Hrow).
    assert (product' = product) as -> by congruence.
    assert (Hok : row_ok row = true).
    { destruct (row_ok row) eqn:Hok; [done|].
      rewrite (readRow_not_ok row i Hok) in Hrow. done. }
    destruct (readRow_ok row i Hok) as (product' & Hrow' & _ & _ & Hpid & _).
    assert (product' = product) as -> by congruence.
    rewrite Hpid. unfold or_value. by destruct (truthy _). }
  split; [exact Hid|].
  intros i j row_i row_j product_i product_j Hi Hj Hpi Hpj Hgi Hgj Heq.
  rewrite (Hid i row_i product_i Hi Hpi), (Hid j row_j product_j Hj Hpj), Hgi, Hgj in Heq.
  apply append_inj_l, Number_toString_inj in Heq. lia.
Qed.

End ExcelFile.

Section SeedSteps.
Import SeedDatabase.
Context {Product vector : Type} `{Outside Product vector}.
Implicit Types db : Db Product vector.

Lemma printed_printed db l1 l2 : printed (printed db l1) l2 = printed db (l1 ++ l2).
Proof. unfold printed; simpl. by rewrite app_assoc. Qed.

Lemma printed_nil db : printed db [] = db.
Proof. destruct db. unfold printed; simpl. by rewrite app_nil_r. Qed.

Lemma script_bind_run {A B} (m : Script Product vector A) (f : A -> Script Product vector B) db :
  (m ≫= f) db = match m db with
                | (Done a, db') => f a db'
                | (Threw e, db') => (Threw e, db')
                end.
Proof. reflexivity. Qed.

Lemma await_run call (reply : Reply unit) change db :
  await call reply change db =
  match reply with
  | Resolved _ => (Done tt, change db)
  | Rejected message => (Threw (CallFailed call message), db)
  end.
Proof. reflexivity. Qed.

(** What [try ... catch ... finally] of [seedDatabase] makes of its body:
    a failure of the body is printed, not thrown, and the client is closed in
    every case. *)
Lemma try_print_close (body : Script Product vector unit) text db :
  try_catch_finally body (fun e => print (Errored text e)) client_close db =
  let db1 := match body db with
             | (Done _, db') => db'
             | (Threw e, db') => printed db' [Errored text e]
             end in
  match close with
  | Resolved _ => (Done tt, with_connected db1 false)
  | Rejected message => (Threw (CallFailed Close message), db1)
  end.
Proof.
  unfold try_catch_finally, client_close, print, await.
  destruct (body db) as [[[]|e] db']; cbn; destruct close; reflexivity.
Qed.

Section Records.
Variable createProductSummary : Product -> string.
Variable product_id : Product -> string.

Local Abbreviation summarize := (SeedDatabase.summarize createProductSummary).
Local Abbreviation save := (SeedDatabase.save product_id).

Lemma save_stored record document db :
  stored createProductSummary document record ->
  save (summarize record) db =
  (Done tt, printed (with_products db (products db ++ [document]))
              [saved_line product_id record]).
Proof.
  intros (Htext & Hmeta & Hembed & Hinsert).
  unfold save, fromDocuments, ask, print, await. rewrite !script_bind_run. cbn.
  rewrite Hembed.
  assert (Hdoc : {| embedding_text := createProductSummary record;
                    embedding := embedding document;
                    metadata := record |} = document).
  { destruct document; cbn in *. by subst. }
  rewrite Hdoc, Hinsert. reflexivity.
Qed.

Lemma save_fails record e db :
  fails_with createProductSummary record e ->
  save (summarize record) db = (Threw e, db).
Proof.
  unfold save, fromDocuments, ask, print, await. rewrite !script_bind_run. cbn.
  intros [(message & Hembed & ->)|(v & message & Hembed & Hinsert & ->)];
    rewrite Hembed; [reflexivity|].
  cbn. by rewrite Hinsert.
Qed.

(** The loop over the records stores them one after the other, at the end
    of the collection and in their order. *)
Lemma for_of_stored records : forall db,
  Forall (storable createProductSummary) records ->
  exists documents,
    for_of (summarize <$> records) save db =
    (Done tt, printed (with_products db (products db ++ documents))
                (saved_line product_id <$> records))
    /\ Forall2 (stored createProductSummary) documents records.
Proof.
  induction records as [|record records IH]; intros db Hall.
  - exists []. split; [|constructor].
    cbn. unfold with_products. rewrite app_nil_r, printed_nil. by destruct db.
  - apply Forall_cons in Hall as [[document Hdoc] Hall].
    cbn [fmap list_fmap for_of]. rewrite script_bind_run.
    rewrite (save_stored record document db Hdoc).
    destruct (IH (printed (with_products db (products db ++ [document]))
                    [saved_line product_id record]) Hall)
      as (documents & Hrun & Hdocs).
    exists (document :: documents). split; [|by constructor].
    change (list_fmap _ _ ?f ?l) with (f <$> l). rewrite Hrun.
    unfold printed, with_products; cbn. by rewrite <- !app_assoc.
Qed.

(** The loop stops at the first record it fails on: the records before it
    are stored, the others are not. *)
Lemma for_of_fails saved failing rest e : forall db,
  Forall (storable createProductSummary) saved ->
  fails_with createProductSummary failing e ->
  exists documents,
    for_of (summarize <$> saved ++ failing :: rest) save db =
    (Threw e, printed (with_products db (products db ++ documents))
                (saved_line product_id <$> saved))
    /\ Forall2 (stored createProductSummary) documents saved.
Proof.
  induction saved as [|record saved IH]; intros db Hall Hfail.
  - exists []. split; [|constructor].
    cbn [app fmap list_fmap for_of]. rewrite script_bind_run.
    rewrite (save_fails failing e db Hfail).
    unfold with_products. rewrite app_nil_r. cbn. rewrite printed_nil. by destruct db.
  - apply Forall_cons in Hall as [[document Hdoc] Hall].
    cbn [app fmap list_fmap for_of]. rewrite script_bind_run.
    rewrite (save_stored record document db Hdoc).
    destruct (IH (printed (with_products db (products db ++ [document]))
                    [saved_line product_id record]) Hall Hfail)
      as (documents & Hrun & Hdocs).
    exists (document :: documents). split; [|by constructor].
    change (list_fmap _ _ ?f ?l) with (f <$> l). rewrite Hrun.
    unfold printed, with_products; cbn. by rewrite <- !app_assoc.
Qed.

(** [seedDatabase], step by step: the state its body leaves, a failure
    printed, and then the closing of the client. *)
Lemma seedDatabase_from_run (load : Script Product vector (list Product)) db :
  seedDatabase_from load createProductSummary product_id db =
  let failed db' e := printed db' [Errored "Error seeding database:" e] in
  let db1 :=
    match connect with
    | Rejected message => failed db (CallFailed Connect message)
    | Resolved _ =>
        match ping with
        | Rejected message => failed (with_connected db true) (CallFailed Ping message)
        | Resolved _ =>
            let db_pinged := printed (with_connected db true) [pinged_line] in
            match deleteMany with
            | Rejected message => failed db_pinged (CallFailed DeleteMany message)
            | Resolved _ =>
                match load (with_products db_pinged []) with
                | (Threw e, db') => failed db' e
                | (Done records, db') =>
                    match for_of (summarize <$> records) save db' with
                    | (Threw e, db'') => failed db'' e
                    | (Done _, db'') => printed db'' [completed_line]
                    end
                end
            end
        end
    end in
  match close with
  | Resolved _ => (Done tt, with_connected db1 false)
  | Rejected message => (Threw (CallFailed Close message), db1)
  end.
Proof.
  unfold seedDatabase_from. rewrite try_print_close. cbv zeta.
  unfold client_connect, admin_ping, collection_deleteMany, print.
  rewrite !script_bind_run, !await_run.
  destruct connect; [|reflexivity]. rewrite !script_bind_run, await_run.
  destruct ping; [|reflexivity]. rewrite !script_bind_run, await_run.
  destruct deleteMany; [|reflexivity]. rewrite !script_bind_run.
  unfold id, pinged_line.
  destruct (load _) as [[records|e] db']; [|reflexivity].
  rewrite !script_bind_run.
  destruct (for_of _ _ db') as [[[]|e] db'']; reflexivity.
Qed.

Section Load.
Variable load : Script Product vector (list Product).

(** Whatever fails while seeding is printed, not thrown: the script ends
    normally when the client closes, and with the failure of [close]
    otherwise. *)
Lemma seed_settles db :
  fst (seedDatabase_from load createProductSummary product_id db) =
  match close with
  | Resolved _ => Done tt
  | Rejected message => Threw (CallFailed Close message)
  end.
Proof. rewrite seedDatabase_from_run. cbv zeta. by destruct close. Qed.

Lemma seed_closes db :
  close = Resolved tt ->
  connected (snd (seedDatabase_from load createProductSummary product_id db)) = false.
Proof. intros Hclose. rewrite seedDatabase_from_run. cbv zeta. by rewrite Hclose. Qed.


Hypothesis connects : connect = Resolved tt.
Hypothesis pings : ping = Resolved tt.
Hypothesis deletes : deleteMany = Resolved tt.

Lemma seed_load_fails lines e db :
  (forall db0, load db0 = (Threw e, printed db0 lines)) ->
  products (snd (seedDatabase_from load createProductSummary product_id db)) = []
  /\ console (snd (seedDatabase_from load createProductSummary product_id db)) =
     console db ++ pinged_line :: lines ++ [Errored "Error seeding database:" e].
Proof.
  intros Hload. rewrite seedDatabase_from_run. cbv zeta.
  rewrite connects, pings, deletes, Hload.
  destruct close; cbn; by rewrite <- !app_assoc.
Qed.

Lemma seed_store_fails lines saved failing rest e db :
  (forall db0, load db0 = (Done (saved ++ failing :: rest), printed db0 lines)) ->
  Forall (storable createProductSummary) saved ->
  fails_with createProductSummary failing e ->
  exists documents,
    products (snd (seedDatabase_from load createProductSummary product_id db)) = documents
    /\ Forall2 (stored createProductSummary) documents saved
    /\ console (snd (seedDatabase_from load createProductSummary product_id db)) =
       console db ++ pinged_line :: lines ++ (saved_line product_id <$> saved)
                  ++ [Errored "Error seeding database:" e].
Proof.
  intros Hload Hsaved Hfail. rewrite seedDatabase_from_run. cbv zeta.
  rewrite connects, pings, deletes, Hload.
  match goal with
  | |- context [for_of _ _ ?db0] =>
      destruct (for_of_fails saved failing rest e db0 Hsaved Hfail)
        as (documents & Hrun & Hdocs)
  end.
  rewrite Hrun. exists documents.
  destruct close; cbn; rewrite <- !app_assoc; repeat split; auto.
Qed.

Lemma seed_stores_all lines records db :
  (forall db0, load db0 = (Done records, printed db0 lines)) ->
  Forall (storable createProductSummary) records ->
  exists documents,
    products (snd (seedDatabase_from load createProductSummary product_id db)) = documents
    /\ Forall2 (stored createProductSummary) documents records
    /\ console (snd (seedDatabase_from load createProductSummary product_id db)) =
       console db ++ pinged_line :: lines ++ (saved_line product_id <$> records)
                  ++ [completed_line].
Proof.
  intros Hload Hall. rewrite seedDatabase_from_run. cbv zeta.
  rewrite connects, pings, deletes, Hload.
  match goal with
  | |- context [for_of _ _ ?db0] =>
      destruct (for_of_stored records db0 Hall) as (documents & Hrun & Hdocs)
  end.
  rewrite Hrun. exists documents.
  destruct close; cbn; rewrite <- !app_assoc; repeat split; auto.
Qed.

End Load.

End Records.
End SeedSteps.

Section ExcelSeeding.
Import SeedDatabase SeedDatabase.Excel.
Context {vector : Type} `{Outside Product vector}.
Variable sheet_to_json : string -> Reply (list Row).
Implicit Types db : Db Product vector.

Lemma Forall2_lookup_rows (documents : list (Document Product vector)) products rows :
  Forall2 (stored createProductSummary) documents products ->
  length products = length rows ->
  (forall i row,
      rows !! i = Some row ->
      exists product, products !! i = Some product /\ readRow row i = Done product) ->
  length documents = length rows
  /\ forall i row,
       rows !! i = Some row ->
       exists document product,
         documents !! i = Some document
         /\ readRow row i = Done product
         /\ stored createProductSummary document product.
Proof.
  intros Hdocs Hlen Hnth. split.
  - by rewrite (Forall2_length _ _ _ Hdocs).
  - intros i row Hi.
    destruct (Hnth i row Hi) as (product & Hp & Hrow).
    destruct (Forall2_lookup_r _ _ _ _ _ Hdocs Hp) as (document & Hd & Hstored).
    by exists document, product.
Qed.

(** A run of the script in which every call succeeds replaces the
    collection, whatever it held, by one document per row of the sheet, in
    the order of the rows: the summary of the row's record, the embedding of
    that summary, and the record.  It prints a line per record and the
    closing line, and leaves the client closed. *)
Theorem seeding_replaces_the_collection_by_the_rows rows db :
  connect = Resolved tt -> ping = Resolved tt -> deleteMany = Resolved tt ->
  close = Resolved tt ->
  sheet_to_json "AveneData.xlsx" = Resolved rows ->
  forallb row_ok rows = true ->
  (forall i row product,
      rows !! i = Some row -> readRow row i = Done product ->
      storable createProductSummary product) ->
  let after := seedDatabase sheet_to_json db in
  fst after = Done tt
  /\ connected (snd after) = false
  /\ length (products (snd after)) = length rows
  /\ (forall i row,
        rows !! i = Some row ->
        exists document product,
          products (snd after) !! i = Some document
          /\ readRow row i = Done product
          /\ stored createProductSummary document product)
  /\ exists records,
       readExcelFile sheet_to_json "AveneData.xlsx" = Done records
       /\ console (snd after) =
          console db ++ pinged_line :: (saved_line product_id <$> records)
                     ++ [completed_line].
Proof.
  intros Hconnect Hping Hdelete Hclose Hrows Hok Hstorable after.
  pose proof (readExcelFile_rows_ok sheet_to_json _ rows Hrows) as Hread.
  rewrite Hok in Hread. destruct Hread as (records & Hread & Hlen & Hnth).
  assert (Hall : Forall (storable createProductSummary) records).
  { apply Forall_lookup_2. intros i product Hp.
    destruct (lookup_lt_is_Some_2 rows i) as [row Hi].
    { rewrite <- Hlen. by apply lookup_lt_Some in Hp. }
    destruct (Hnth i row Hi) as (product' & Hp' & Hrow).
    assert (product' = product) as -> by congruence.
    by apply (Hstorable i row). }
  destruct (seed_stores_all createProductSummary product_id
              (fun db0 => (readExcelFile sheet_to_json "AveneData.xlsx", db0))
              Hconnect Hping Hdelete [] records db) as (documents & Hprod & Hdocs & Hcons); auto.
  { intros db0. by rewrite Hread, printed_nil. }
  destruct (Forall2_lookup_rows documents records rows Hdocs Hlen Hnth) as [Hlen' Hnth'].
  subst after. unfold seedDatabase.
  split; [by rewrite seed_settles, Hclose|].
  split; [by apply seed_closes|].
  rewrite Hprod. split; [exact Hlen'|]. split; [exact Hnth'|].
  exists records. split; [exact Hread | exact Hcons].
Qed.


(** The collection is emptied before the workbook is read and before
    anything is stored, and nothing is put back when a later step fails: a
    workbook that cannot be read leaves the collection empty, and a record
    that cannot be stored leaves it with the records before that one, the
    documents it held before the run being gone in both cases. *)
Theorem failed_seeding_leaves_the_collection_short db :
  connect = Resolved tt -> ping = Resolved tt -> deleteMany = Resolved tt ->
  let after := seedDatabase sheet_to_json db in
  (forall e,
      readExcelFile sheet_to_json "AveneData.xlsx" = Threw e ->
      products (snd after) = []
      /\ console (snd after) =
         console db ++ [pinged_line; Errored "Error seeding database:" e])
  /\ (forall saved failing rest e,
        readExcelFile sheet_to_json "AveneData.xlsx" = Done (saved ++ failing :: rest) ->
        Forall (storable createProductSummary) saved ->
        fails_with createProductSummary failing e ->
        Forall2 (stored createProductSummary) (products (snd after)) saved
        /\ console (snd after) =
           console db ++ pinged_line :: (saved_line product_id <$> saved)
                      ++ [Errored "Error seeding database:" e]).
Proof.
  intros Hconnect Hping Hdelete after. subst after. unfold seedDatabase. split.
  - intros e Hread.
    apply (seed_load_fails createProductSummary product_id _ Hconnect Hping Hdelete [] e db).
    intros db0. by rewrite Hread, printed_nil.
  - intros saved failing rest e Hread Hsaved Hfail.
    destruct (seed_store_fails createProductSummary product_id
                (fun db0 => (readExcelFile sheet_to_json "AveneData.xlsx", db0))
                Hconnect Hping Hdelete [] saved failing rest e db)
      as (documents & Hprod & Hdocs & Hcons); auto.
    { intros db0. by rewrite Hread, printed_nil. }
    rewrite Hprod. split; [exact Hdocs | exact Hcons].
Qed.

End ExcelSeeding.

Section SyntheticSeeding.
Import SeedDatabase SeedDatabase.Synthetic.
Context {number vector : Type} `{JsNumber number}
  `{Outside (@Product number) vector} `{@Generator number}.
Implicit Types db : Db (@Product number) vector.

Lemma generateSyntheticData_run db :
  generateSyntheticData db =
  (match llm_invoke generation_prompt with
   | Rejected message => Threw (CallFailed LlmInvoke message)
   | Resolved response =>
       match parser_parse response with
       | Rejected message => Threw (CallFailed ParserParse message)
       | Resolved records => Done records
       end
   end, printed db [generating_line]).
Proof.
  unfold generateSyntheticData, print, ask. rewrite !script_bind_run.
  destruct (llm_invoke _) as [response|message]; [|reflexivity].
  by destruct (parser_parse response).
Qed.

(** A run of the script in which every call succeeds replaces the
    collection, whatever it held, by one document per record the parser read
    in the reply of the language model, in their order: the summary of the
    record, the embedding of that summary, and the record. *)
Theorem seeding_stores_the_generated_records response records db :
  connect = Resolved tt -> ping = Resolved tt -> deleteMany = Resolved tt ->
  close = Resolved tt ->
  llm_invoke generation_prompt = Resolved response ->
  parser_parse response = Resolved records ->
  Forall (storable createProductSummary) records ->
  let after := seedDatabase db in
  fst after = Done tt
  /\ connected (snd after) = false
  /\ Forall2 (stored createProductSummary) (products (snd after)) records
  /\ console (snd after) =
     console db ++ pinged_line :: generating_line
                :: (saved_line product_id <$> records) ++ [completed_line].
Proof.
  intros Hconnect Hping Hdelete Hclose Hllm Hparse Hall after.
  destruct (seed_stores_all createProductSummary product_id generateSyntheticData
              Hconnect Hping Hdelete [generating_line] records db)
    as (documents & Hprod & Hdocs & Hcons); auto.
  { intros db0. by rewrite generateSyntheticData_run, Hllm, Hparse. }
  subst after. unfold seedDatabase.
  split; [by rewrite seed_settles, Hclose|].
  split; [by apply seed_closes|].
  rewrite Hprod. split; [exact Hdocs | exact Hcons].
Qed.

(** The collection is emptied before the language model is asked for the
    records.  When the model fails, or when its reply does not parse to
    records of the schema, the script prints the failure, throws nothing and
    leaves the collection empty; when a record cannot be stored, it leaves
    the records before that one. *)
Theorem rejected_generation_leaves_the_collection_empty db :
  connect = Resolved tt -> ping = Resolved tt -> deleteMany = Resolved tt ->
  let after := seedDatabase db in
  fst after = match close with
              | Resolved _ => Done tt
              | Rejected message => Threw (CallFailed Close message)
              end
  /\ (forall message,
        llm_invoke generation_prompt = Rejected message ->
        products (snd after) = []
        /\ console (snd after) =
           console db ++ [pinged_line; generating_line;
                          Errored "Error seeding database:" (CallFailed LlmInvoke message)])
  /\ (forall response message,
        llm_invoke generation_prompt = Resolved response ->
        parser_parse response = Rejected message ->
        products (snd after) = []
        /\ console (snd after) =
           console db ++ [pinged_line; generating_line;
                          Errored "Error seeding database:" (CallFailed ParserParse message)])
  /\ (forall response saved failing rest e,
        llm_invoke generation_prompt = Resolved response ->
        parser_parse response = Resolved (saved ++ failing :: rest) ->
        Forall (storable createProductSummary) saved ->
        fails_with createProductSummary failing e ->
        Forall2 (stored createProductSummary) (products (snd after)) saved).
Proof.
  intros Hconnect Hping Hdelete after. subst after. unfold seedDatabase.
  split; [apply seed_settles|]. split; [|split].
  - intros message Hllm.
    apply (seed_load_fails createProductSummary product_id _ Hconnect Hping Hdelete
             [generating_line]).
    intros db0. by rewrite generateSyntheticData_run, Hllm.
  - intros response message Hllm Hparse.
    apply (seed_load_fails createProductSummary product_id _ Hconnect Hping Hdelete
             [generating_line]).
    intros db0. by rewrite generateSyntheticData_run, Hllm, Hparse.
  - intros response saved failing rest e Hllm Hparse Hsaved Hfail.
    destruct (seed_store_fails createProductSummary product_id generateSyntheticData
                Hconnect Hping Hdelete [generating_line] saved failing rest e db)
      as (documents & Hprod & Hdocs & _); auto.
    { intros db0. by rewrite generateSyntheticData_run, Hllm, Hparse. }
    by rewrite Hprod.
Qed.

End SyntheticSeeding.

Section SyntheticSummary.
Import SeedDatabase SeedDatabase.Synthetic.
Context {number : Type} `{JsNumber number}.
Implicit Types product : @Product number.




End SyntheticSummary.

Section Mentions.
Import SeedDatabase SeedDatabase.Synthetic.
Context {number : Type} `{JsNumber number}.
Implicit Types product : @Product number.

Lemma embeds_refl x : embeds x x.
Proof. exists EmptyString, EmptyString. by rewrite append_nil_r. Qed.

Lemma embeds_l x s t : embeds x s -> embeds x (s +:+ t).
Proof. intros (b & a & ->). exists b, (a +:+ t). by rewrite !append_assoc. Qed.

Lemma embeds_r x s t : embeds x t -> embeds x (s +:+ t).
Proof. intros (b & a & ->). exists (s +:+ b), a. by rewrite !append_assoc. Qed.

Lemma embeds_join x sep l : x ∈ l -> embeds x (join sep l).
Proof.
  induction l as [|y l IH]; intros Hin; [by apply elem_of_nil in Hin|].
  apply elem_of_cons in Hin as [->|Hin].
  - destruct l; [apply embeds_refl | apply embeds_l, embeds_refl].
  - destruct l as [|z l]; [by apply elem_of_nil in Hin|].
    apply embeds_r, embeds_r. by apply IH.
Qed.

Create HintDb mentions.
#[local] Hint Resolve embeds_refl embeds_l embeds_r embeds_join : mentions.

(** The text that is embedded for a product mentions, as they are written
    in the record, its name, category and description, its usage
    instructions, every one of its ingredients and benefits, and every
    related product when the record lists some. *)
Theorem summary_mentions_what_the_record_lists product :
  let summary := createProductSummary product in
  embeds (product_name product) summary
  /\ embeds (category product) summary
  /\ embeds (description product) summary
  /\ embeds (usage_instructions product) summary
  /\ (forall ingredient, ingredient ∈ ingredients product -> embeds ingredient summary)
  /\ (forall benefit, benefit ∈ benefits product -> embeds benefit summary)
  /\ (forall related other,
        related_products product = Some related -> other ∈ related ->
        embeds other summary).
Proof.
  cbv zeta. unfold createProductSummary. cbv zeta.
  repeat split; intros.
  1-6: eauto 40 with mentions.
  match goal with Hrel : related_products product = Some _ |- _ => rewrite Hrel end.
  unfold if_array. eauto 40 with mentions.
Qed.

End Mentions.

(** * The claims on sample requests *)

Section Samples.
Import Scenario.

(** With the looping chat model the run is out of steps after 15
    super-steps and 8 AGENT invocations. *)
Lemma recursion_limit_on_looping_model :
  exists added,
    fst (@callAgent looping empty_object "t1" None fresh) = Throw GraphRecursionError
    /\ log (snd (@callAgent looping empty_object "t1" None fresh)) = log fresh ++ added
    /\ supersteps added = 15%nat
    /\ agent_invocations added = 8%nat.
Proof.
  destruct (@recursion_limit_counts_supersteps looping empty_object "t1" None fresh)
    as [_ Hrun].
  destruct (Hrun (JObject []) None fresh) as [_ Hloop]; [reflexivity | reflexivity |].
  apply Hloop. intros prompt. eexists _, _. split; [reflexivity | discriminate].
Defined.

(** Against C1 as stated: with a chat model that requests a tool call on
    every reply, the error is raised when AGENT has been invoked 8 times;
    there is no 15th AGENT attempt. *)
Lemma looping_model_is_stopped_after_8_agent_invocations :
  fst (@callAgent looping empty_object "t1" None fresh) = Throw GraphRecursionError
  /\ agent_invocations (log (snd (@callAgent looping empty_object "t1" None fresh))) = 8%nat
  /\ agent_invocations (log (snd (@callAgent looping empty_object "t1" None fresh))) <> 15%nat.
Proof. vm_compute. split; [reflexivity|]. split; [reflexivity | discriminate]. Qed.





(** C5 on a sample: the questionnaire arrives with a photo while the
    vision service is overloaded. *)
Lemma vision_failure_sample :
  vision_invocations
    (log (snd (@postChat vision_failing clock profile (Some image_path) fresh)))
  = S (vision_invocations (log fresh))
  /\ (forall msg,
        vision_down "/9j/4AAQSkZJRg==" = Rejected msg ->
        @callAgent vision_failing (Sample.stringify (questionnaire profile))
          (Date_now_toString clock) (Some image_path) fresh
        = (Throw (ModelInvocationError VisionModel msg),
           logged fresh [FileRead image_path; VisionInvoked "/9j/4AAQSkZJRg=="])
        /\ @postChat vision_failing clock profile (Some image_path) fresh
           = (Status500 "Internal server error",
              logged fresh [FileRead image_path; VisionInvoked "/9j/4AAQSkZJRg=="])
        /\ agent_invocations
             (log (snd (@postChat vision_failing clock profile (Some image_path) fresh)))
           = agent_invocations (log fresh)
        /\ checkpoints (snd (@postChat vision_failing clock profile (Some image_path) fresh))
           = checkpoints fresh).
Proof.
  apply (@vision_model_is_invoked_once vision_failing clock profile image_path
           (JObject [("skinType", JString "oily"); ("mainConcerns", JString "acne")])
           "/9j/4AAQSkZJRg==" fresh); [reflexivity | discriminate | reflexivity].
Defined.

(** C6 on a sample: the chat model answers at once. *)
Lemma immediate_answer_sample :
  exists prompt before,
    log (snd (@callAgent answering empty_object "t1" None fresh))
    = log fresh ++ before ++ [ModelInvoked prompt]
    /\ @model_invoke answering prompt
       = Resolved ("Use a gentle cleanser and a salicylic acid serum.", []).
Proof.
  destruct (@reply_without_tool_calls_is_the_response answering empty_object "t1" None fresh)
    as (_ & _ & Hrun).
  apply Hrun. reflexivity.
Defined.

(** Against C6 as stated: after seven rounds of tool calls the eighth
    AGENT reply has no tool call, and it is the last message checkpointed;
    but that turn is the 15th super-step, and the run ends with
    [GraphRecursionError] instead of returning the reply.  One round less,
    and the reply is returned. *)
Lemma answer_on_the_last_superstep_is_lost :
  fst (@callAgent (answering_after 7) empty_object "t1" None fresh)
  = Throw GraphRecursionError
  /\ last (history (snd (@callAgent (answering_after 7) empty_object "t1" None fresh)) "t1")
     = Some (AIMessage "Here is your routine." [])
  /\ supersteps (log (snd (@callAgent (answering_after 7) empty_object "t1" None fresh)))
     = 15%nat
  /\ fst (@callAgent (answering_after 6) empty_object "t1" None fresh)
     = Ok "Here is your routine.".
Proof. vm_compute. repeat split. Qed.

(** C7 on a sample: one request, answered at once, on a fresh thread. *)
Lemma history_sample :
  history (snd (@callAgent answering empty_object "t1" None fresh)) "t1"
  = [HumanMessage request_text;
     AIMessage "Use a gentle cleanser and a salicylic acid serum." []]
  /\ exists added,
       history (snd (@callAgent answering empty_object "t1" None fresh)) "t1"
       = history fresh "t1" ++ added
       /\ exists replies, added = HumanMessage request_text :: replies /\ replies <> [].
Proof.
  split; [reflexivity|].
  destruct (@history_is_append_only answering empty_object "t1" None fresh)
    as (_ & _ & (added & Hh & Hok) & _).
  exists added. split; [exact Hh|]. by apply (Hok "Use a gentle cleanser and a salicylic acid serum.").
Defined.

(** C8 on the specification's scenario: the questionnaire
    [{ skinType: "oily", mainConcerns: "acne" }] and no image. *)
Lemma seed_context_sample :
  exists system time rest,
    log (snd (@callAgent answering (Sample.stringify (questionnaire profile)) "t1" None fresh))
    = log fresh ++ Ran agent
                 :: ModelInvoked [SystemMessage system; HumanMessage request_text]
                 :: rest
    /\ system = system_template
                  (Sample.stringify_indent2 EmptyString
                     (JObject [("skinType", JString "oily"); ("mainConcerns", JString "acne")]))
                  "No image analysis available" "product_lookup" time
    /\ embeds no_image_analysis system.
Proof.
  destruct (@seed_context_embeds_profile_and_analysis answering
              (Sample.stringify (questionnaire profile)) "t1" None
              (JObject [("skinType", JString "oily"); ("mainConcerns", JString "acne")])
              None fresh fresh eq_refl eq_refl)
    as (_ & _ & system & time & rest & Hlog & Hsys & _ & _ & Hnone & _).
  exists system, time, rest. split; [exact Hlog|]. split; [exact Hsys | by apply Hnone].
Defined.

(** Against C8 as stated: a questionnaire arrives with a photo and is
    answered from its analysis; the follow-up on the same thread is answered
    from a context that holds the placeholder, the analysis being neither
    derived again nor referenced, and the thread's [imageAnalysis] channel is
    back to [null]. *)
Lemma analysis_is_not_carried_to_the_next_request :
  fst (@postChat answering clock profile (Some image_path) fresh)
  = Started "1732096800123" "Use a gentle cleanser and a salicylic acid serum."
  /\ log (snd (@postChat answering clock profile (Some image_path) fresh)) !! 3%nat
     = Some (ModelInvoked
               [SystemMessage
                  (system_template
                     (Sample.stringify_indent2 EmptyString
                        (JObject [("skinType", JString "oily");
                                  ("mainConcerns", JString "acne")]))
                     "Oily skin with mild acne on the forehead."
                     "product_lookup" "2024-11-20T10:00:00.000Z");
                HumanMessage request_text])
  /\ last (log (snd (@postChatThread answering "1732096800123" empty_object
                       (snd (@postChat answering clock profile (Some image_path) fresh)))))
     = Some (ModelInvoked
               [SystemMessage
                  (system_template "{}" "No image analysis available"
                     "product_lookup" "2024-11-20T10:00:00.000Z");
                HumanMessage request_text;
                AIMessage "Use a gentle cleanser and a salicylic acid serum." [];
                HumanMessage request_text])
  /\ imageAnalysis
       <$> checkpoints
             (snd (@postChatThread answering "1732096800123" empty_object
                     (snd (@postChat answering clock profile (Some image_path) fresh))))
           !! "1732096800123"
     = Some None
  /\ vision_invocations
       (log (snd (@postChatThread answering "1732096800123" empty_object
                    (snd (@postChat answering clock profile (Some image_path) fresh)))))
     = 1%nat.
Proof. vm_compute. repeat split. Qed.


(** C10 on a sample: a follow-up question in plain words. *)
Lemma plain_words_sample :
  @callAgent answering plain_words "1732096800123" None fresh = (Throw SyntaxError, fresh)
  /\ @postChatThread answering "1732096800123" plain_words fresh
     = (Status500 "Internal server error", fresh).
Proof.
  apply (proj1 (@unparsable_message_fails_at_once answering "1732096800123" plain_words fresh)).
  reflexivity.
Defined.

(** A follow-up on the thread of an answered questionnaire: the chat model
    reads the earlier exchange before the new request message. *)
Lemma resumed_thread_sample :
  exists system rest,
    log (snd (@callAgent answering empty_object "1732096800123" None
                (snd (@postChat answering clock profile None fresh)))) =
    log (snd (@postChat answering clock profile None fresh))
    ++ Ran agent
       :: ModelInvoked
            (SystemMessage system
             :: [HumanMessage request_text;
                 AIMessage "Use a gentle cleanser and a salicylic acid serum." []]
             ++ [HumanMessage request_text])
       :: rest.
Proof.
  destruct (@request_resumes_from_the_checkpoint answering empty_object "1732096800123"
              (JObject []) (snd (@postChat answering clock profile None fresh)) eq_refl)
    as [_ Hlog].
  exact Hlog.
Defined.

End Samples.

(** * The seeding script on sample sheets *)

Section SeedSamples.
Import SeedDatabase SeedScenario.

(** The summary of the full row shows its two list cells as written. *)
Lemma summary_of_the_cleanser_row :
  exists product,
    Excel.readRow cleanser 0 = Done product
    /\ join ", " (Excel.benefits product) = "Purifies, Mattifies"
    /\ join ", " (Excel.ingredients product) = "Avene Thermal Spring Water, Zinc Gluconate"
    /\ Excel.createProductSummary product =
       "Cleanance Cleansing Gel (Cleanance): Soap-free gel for oily skin. Ingredients: Avene Thermal Spring Water, Zinc Gluconate. Benefits: Purifies, Mattifies. Use: Daily. Application: Face".
Proof.
  exact (summary_shows_the_cells_of_the_row cleanser 0 eq_refl).
Defined.

(** A sheet of two rows gives two records; a sheet with the row whose
    [Benefits] cell holds a number gives none. *)
Lemma two_rows_and_a_miskeyed_row :
  (exists products,
      Excel.readExcelFile (workbook [cleanser; spray]) "AveneData.xlsx" = Done products
      /\ length products = 2%nat
      /\ forall i row,
           [cleanser; spray] !! i = Some row ->
           exists product, products !! i = Some product /\ Excel.readRow row i = Done product)
  /\ Excel.readExcelFile (workbook [cleanser; miskeyed; spray]) "AveneData.xlsx"
     = Threw (NotAFunction "split").
Proof.
  split.
  - exact (readExcelFile_gives_one_record_per_row
             (workbook [cleanser; spray]) "AveneData.xlsx" [cleanser; spray] eq_refl).
  - exact (readExcelFile_gives_one_record_per_row
             (workbook [cleanser; miskeyed; spray]) "AveneData.xlsx"
             [cleanser; miskeyed; spray] eq_refl).
Defined.

(** In a sheet of three rows of which the first and the last have no
    [GTIN], the identifiers are [product_0], the GTIN of the second row, and
    [product_2]. *)
Lemma identifiers_of_three_rows :
  Excel.product_id <$> [spray_record 0; cleanser_record; spray_record 2]
  = ["product_0"; "3282770207774"; "product_2"]
  /\ (forall i j row_i row_j product_i product_j,
        [spray; cleanser; spray] !! i = Some row_i ->
        [spray; cleanser; spray] !! j = Some row_j ->
        [spray_record 0; cleanser_record; spray_record 2] !! i = Some product_i ->
        [spray_record 0; cleanser_record; spray_record 2] !! j = Some product_j ->
        truthy (prop row_i "GTIN") = false -> truthy (prop row_j "GTIN") = false ->
        Excel.product_id product_i = Excel.product_id product_j -> i = j).
Proof.
  split; [reflexivity|].
  exact (proj2 (rows_without_GTIN_get_distinct_ids
                  (workbook [spray; cleanser; spray]) "AveneData.xlsx"
                  [spray; cleanser; spray]
                  [spray_record 0; cleanser_record; spray_record 2] eq_refl eq_refl)).
Defined.

Lemma every_record_is_storable {Product : Type} (summary : Product -> string) record :
  @storable Product (list Z) answering_db summary record.
Proof.
  exists {| embedding_text := summary record;
            embedding := [Z.of_nat (String.length (summary record))];
            metadata := record |}.
  repeat split.
Defined.

(** With a database that answers every call, a sheet of two rows replaces
    the document of an earlier run by two documents. *)
Lemma seeding_two_rows :
  let after :=
    @Excel.seedDatabase (workbook [cleanser; spray]) (list Z) answering_db
      (seeded_before cleanser_record) in
  fst after = Done tt
  /\ connected (snd after) = false
  /\ length (products (snd after)) = 2%nat
  /\ (forall i row,
        [cleanser; spray] !! i = Some row ->
        exists document product,
          products (snd after) !! i = Some document
          /\ Excel.readRow row i = Done product
          /\ @stored _ _ answering_db Excel.createProductSummary document product)
  /\ exists records,
       Excel.readExcelFile (workbook [cleanser; spray]) "AveneData.xlsx" = Done records
       /\ console (snd after) =
          [] ++ pinged_line :: (saved_line Excel.product_id <$> records)
             ++ [completed_line].
Proof.
  exact (@seeding_replaces_the_collection_by_the_rows (list Z) answering_db
           (workbook [cleanser; spray]) [cleanser; spray] (seeded_before cleanser_record)
           eq_refl eq_refl eq_refl eq_refl eq_refl eq_refl
           (fun i row product _ _ => every_record_is_storable _ product)).
Defined.

(** With an embedding service that rejects the summary of the second of
    three rows, the collection is left with the document of the first row
    only: neither the document it held before nor the third row. *)
Lemma seeding_stops_at_the_long_summary :
  let after :=
    @Excel.seedDatabase (workbook [spray; cleanser; spray]) (list Z) limited_db
      (seeded_before cleanser_record) in
  @Forall2 _ _ (@stored _ _ limited_db Excel.createProductSummary)
    (products (snd after)) [spray_record 0]
  /\ console (snd after) =
     [] ++ pinged_line :: (saved_line Excel.product_id <$> [spray_record 0])
        ++ [Errored "Error seeding database:"
              (CallFailed EmbedDocuments "429 Too Many Requests")].
Proof.
  refine (proj2 (@failed_seeding_leaves_the_collection_short (list Z) limited_db
                   (workbook [spray; cleanser; spray]) (seeded_before cleanser_record)
                   eq_refl eq_refl eq_refl)
            [spray_record 0] cleanser_record [spray_record 2]
            (CallFailed EmbedDocuments "429 Too Many Requests") eq_refl _ _).
  - constructor; [|constructor].
    exists {| embedding_text := Excel.createProductSummary (spray_record 0);
              embedding := [104];
              metadata := spray_record 0 |}.
    split; [reflexivity|]. split; [reflexivity|]. split; reflexivity.
  - left. exists "429 Too Many Requests". split; reflexivity.
Defined.

(** With a database that answers every call and a reply that parses to one
    record, the collection is left with the document of that record. *)
Lemma seeding_one_generated_record :
  let after :=
    @Synthetic.seedDatabase Z _ (list Z) answering_db (generator [serum])
      (seeded_before serum) in
  fst after = Done tt
  /\ connected (snd after) = false
  /\ @Forall2 _ _ (@stored _ _ answering_db Synthetic.createProductSummary)
       (products (snd after)) [serum]
  /\ console (snd after) =
     [] ++ pinged_line :: generating_line
        :: (saved_line Synthetic.product_id <$> [serum]) ++ [completed_line].
Proof.
  refine (@seeding_stores_the_generated_records Z (list Z) _ answering_db (generator [serum])
            "[ ... ]" [serum] (seeded_before serum)
            eq_refl eq_refl eq_refl eq_refl eq_refl eq_refl _).
  constructor; [apply every_record_is_storable | constructor].
Defined.

(** A reply in plain words does not parse: the script prints the failure
    and ends normally, and the collection, emptied before the model was
    asked, stays empty. *)
Lemma seeding_with_a_chatty_model :
  let after :=
    @Synthetic.seedDatabase Z _ (list Z) answering_db (chatty [serum])
      (seeded_before serum) in
  fst after = Done tt
  /\ products (snd after) = []
  /\ console (snd after) =
     [pinged_line; generating_line;
      Errored "Error seeding database:" (CallFailed ParserParse "Failed to parse")].
Proof.
  pose proof (@rejected_generation_leaves_the_collection_empty Z (list Z) _ answering_db
                (chatty [serum]) (seeded_before serum) eq_refl eq_refl eq_refl)
    as (Hends & _ & Hparse & _).
  destruct (Hparse "Here are ten products for you!" "Failed to parse" eq_refl eq_refl)
    as [Hproducts Hconsole].
  exact (conj Hends (conj Hproducts Hconsole)).
Defined.

End SeedSamples.
